(** * MidoNet plugin for Neutron: a shallow embedding of
    [neutron/plugins/midonet/plugin.py] and the properties of its
    translation layer (chain names, port chains, security-group rules,
    floating IPs, compensation on failure, the DHCP poll loop). *)

From stdpp Require Import gmap strings list pretty.

#[local] Set Warnings "-register-all".


(** ** Python values used by the plugin *)

(** Truthiness of an optional string ([None] and [''] are falsy). *)
Definition truthy (o : option string) : bool :=
  match o with
  | Some s => negb (String.eqb s EmptyString)
  | None => false
  end.

(** A small dictionary with string keys (a dict literal, keyword
    arguments), kept in the order the keys were set. [dict_get] is
    [d.get(k)] ([None] also stands for the [KeyError] of [d[k]]),
    [dict_set] is [d[k] = v] and [dict_del] removes a key. *)
Definition dict (V : Type) : Type := list (string * V).

Fixpoint dict_get {V} (d : dict V) (k : string) : option V :=
  match d with
  | [] => None
  | (k', v) :: d' => if String.eqb k' k then Some v else dict_get d' k
  end.

Fixpoint dict_set {V} (k : string) (v : V) (d : dict V) : dict V :=
  match d with
  | [] => [(k, v)]
  | (k', v') :: d' =>
      if String.eqb k' k then (k, v) :: d' else (k', v') :: dict_set k v d'
  end.

Fixpoint dict_del {V} (k : string) (d : dict V) : dict V :=
  match d with
  | [] => []
  | (k', v') :: d' =>
      if String.eqb k' k then dict_del k d' else (k', v') :: dict_del k d'
  end.

(** ** Constants *)

Definition METADATA_DEFAULT_IP := "169.254.169.254/32".
Definition OS_FLOATING_IP_RULE_KEY := "OS_FLOATING_IP".
Definition OS_SG_RULE_KEY := "OS_SG_RULE_ID".
Definition OS_TENANT_ROUTER_RULE_KEY := "OS_TENANT_ROUTER_RULE".
Definition SNAT_RULE := "SNAT".

Definition ETHERTYPE_ARP : Z := 0x0806.
Definition ETHERTYPE_IPV4 : Z := 0x0800.
Definition ETHERTYPE_IPV6 : Z := 0x86dd.

(** A name template ["<prefix>%s<suffix>"] and the [%] operator on it. *)
Definition template := (string * string)%type.

Definition fmt (t : template) (x : string) : string := t.1 +:+ x +:+ t.2.

Definition PRE_ROUTING_CHAIN_NAME : template := ("OS_PRE_ROUTING_", EmptyString).
Definition PORT_INBOUND_CHAIN_NAME : template := ("OS_PORT_", "_INBOUND").
Definition PORT_OUTBOUND_CHAIN_NAME : template := ("OS_PORT_", "_OUTBOUND").
Definition POST_ROUTING_CHAIN_NAME : template := ("OS_POST_ROUTING_", EmptyString).
Definition SG_INGRESS_CHAIN_NAME : template := ("OS_SG_", "_INGRESS").
Definition SG_EGRESS_CHAIN_NAME : template := ("OS_SG_", "_EGRESS").
Definition SG_IP_ADDR_GROUP_NAME : template := ("OS_IPG_", EmptyString).

(** ** Name derivation *)

Definition _nat_chain_names (router_id : string) : dict string :=
  let pre_routing_name := fmt PRE_ROUTING_CHAIN_NAME router_id in
  let post_routing_name := fmt POST_ROUTING_CHAIN_NAME router_id in
  [("pre-routing", pre_routing_name); ("post-routing", post_routing_name)].

Definition _sg_chain_names (sg_id : string) : dict string :=
  let ingress := fmt SG_INGRESS_CHAIN_NAME sg_id in
  let egress := fmt SG_EGRESS_CHAIN_NAME sg_id in
  [("ingress", ingress); ("egress", egress)].

Definition _port_chain_names (port_id : string) : dict string :=
  let inbound := fmt PORT_INBOUND_CHAIN_NAME port_id in
  let outbound := fmt PORT_OUTBOUND_CHAIN_NAME port_id in
  [("inbound", inbound); ("outbound", outbound)].

Definition _sg_ip_addr_group_name (sg_id : string) : string :=
  fmt SG_IP_ADDR_GROUP_NAME sg_id.

(** The roles a derived name can play, and the name of a role for an id,
    read off the four functions above. *)
Inductive role :=
  | PreRouting | PostRouting
  | SgIngress | SgEgress
  | PortInbound | PortOutbound
  | SgIpAddrGroup.

Definition nameFor (r : role) (id : string) : option string :=
  match r with
  | PreRouting => dict_get (_nat_chain_names id) "pre-routing"
  | PostRouting => dict_get (_nat_chain_names id) "post-routing"
  | SgIngress => dict_get (_sg_chain_names id) "ingress"
  | SgEgress => dict_get (_sg_chain_names id) "egress"
  | PortInbound => dict_get (_port_chain_names id) "inbound"
  | PortOutbound => dict_get (_port_chain_names id) "outbound"
  | SgIpAddrGroup => Some (_sg_ip_addr_group_name id)
  end.

(** ** Python values, exceptions, results *)

(** The values that travel in keyword arguments to the MidoNet client. *)
Inductive value :=
  | VNone
  | VBool (b : bool)
  | VInt (z : Z)
  | VStr (s : string)
  | VDict (d : list (string * value)).

Definition value_truthy (v : value) : bool :=
  match v with
  | VNone => false
  | VBool b => b
  | VInt z => negb (Z.eqb z 0)
  | VStr s => negb (String.eqb s EmptyString)
  | VDict d => match d with [] => false | _ => true end
  end.

Definition opt_str (o : option string) : value :=
  match o with Some s => VStr s | None => VNone end.

Definition opt_int (o : option Z) : value :=
  match o with Some z => VInt z | None => VNone end.

(** [v == 1] in Python ([True == 1] holds there too). *)
Definition value_is_one (v : option value) : bool :=
  match v with
  | Some (VInt z) => Z.eqb z 1
  | Some (VBool b) => b
  | _ => false
  end.

Inductive exn :=
  | MidonetApiException (msg : string)
  | MidonetResourceNotFound (kind id : string)
  | MidonetPluginException (msg : string)
  | AttributeError (msg : string)
  | KeyError (key : string)
  | IndexError
  | ValueError (msg : string)
  | OperationalError
  | SubnetNotFound (id : string)
  | NetworkNotFound (id : string)
  | PortNotFound (id : string)
  | RouterNotFound (id : string)
  | FloatingIPNotFound (id : string)
  | SecurityGroupNotFound (id : string)
  | SecurityGroupCannotRemoveDefault
  | SecurityGroupInUse (id : string)
  | SecurityGroupRuleNotFound (id : string)
  | DbError (msg : string).

Inductive result (A : Type) :=
  | Ok (a : A)
  | Raise (e : exn).
Arguments Ok {A} a.
Arguments Raise {A} e.

(** ** The remote controller *)

(** A rule as the controller stores it: the id it was given, its action
    and the keyword arguments it was created with. *)
Record rule := Rule {
  rule_id : string;
  rule_action : string;
  rule_kwargs : dict value
}.

Record chain := Chain {
  chain_id : string;
  chain_rules : list rule
}.

(** The handle the client returns for a chain ([get_id], [get_name]). *)
Record chain_ref := ChainRef {
  c_tenant : string;
  c_name : string;
  c_id : string
}.

Record route := Route {
  route_id : string;
  route_router : string;
  route_kwargs : dict value
}.

(** A port of a bridge or of a router. *)
Record mport := MPort {
  mport_id : string;
  mport_device : string;
  mport_peer : option string;
  mport_kwargs : dict value
}.

(** The handle of a router ([get_id], [get_tenant_id]). *)
Record router_ref := RouterRef {
  r_id : string;
  r_tenant : string
}.

(** The state of the controller: the chains by scope (tenant) and name,
    the routes and the ports in the order of their creation, the routers
    with their tenants, the IP address groups with their addresses. *)
Record midonet := Midonet {
  chains : gmap (string * string) chain;
  routes : list route;
  ports : list mport;
  routers : gmap string string;
  ip_addr_groups : gmap string (list string)
}.

Definition set_chains (f : gmap (string * string) chain →
                           gmap (string * string) chain) (m : midonet) :=
  Midonet (f (chains m)) (routes m) (ports m) (routers m) (ip_addr_groups m).
Definition set_routes (f : list route → list route) (m : midonet) :=
  Midonet (chains m) (f (routes m)) (ports m) (routers m) (ip_addr_groups m).
Definition set_ports (f : list mport → list mport) (m : midonet) :=
  Midonet (chains m) (routes m) (f (ports m)) (routers m) (ip_addr_groups m).
Definition set_routers (f : gmap string string → gmap string string)
    (m : midonet) :=
  Midonet (chains m) (routes m) (ports m) (f (routers m)) (ip_addr_groups m).
Definition set_ip_addr_groups
    (f : gmap string (list string) → gmap string (list string))
    (m : midonet) :=
  Midonet (chains m) (routes m) (ports m) (routers m) (f (ip_addr_groups m)).

(** The string, the integer under a key of keyword arguments. *)
Definition kw_str_of (kwargs : dict value) (k : string) : option string :=
  match dict_get kwargs k with Some (VStr s) => Some s | _ => None end.

Definition kw_int_of (kwargs : dict value) (k : string) : option Z :=
  match dict_get kwargs k with Some (VInt z) => Some z | _ => None end.

(** The tag [key: value] in the properties of a rule. *)
Definition has_property (key value : string) (r : rule) : bool :=
  match dict_get (rule_kwargs r) "properties" with
  | Some (VDict props) =>
      match dict_get props key with
      | Some (VStr v) => String.eqb v value
      | _ => false
      end
  | _ => false
  end.

(** The calls of [self.client] that the plugin issues. *)
Inductive call :=
  | GetBridge (id : string)
  | AddBridgePort (bridge : string) (admin_state_up : bool)
  | DeletePort (id : string) (delete_chains : bool)
  | UpdatePortChains (port inbound outbound : string)
  | CreateChain (tenant name : string)
  | GetChainByName (tenant name : string)
  | GetRules (tenant name : string)
  | AddChainRule (tenant name action : string) (kwargs : dict value)
  | RemoveChainRule (id : string)
  | RemoveRulesByProperty (tenant name key value : string)
  | DeleteChainsByNames (tenant : string) (names : list string)
  | DeleteIpAddrGroup (id : string)
  | AddIpAddrToIpAddrGroup (group ip : string)
  | AddDhcpHost (bridge cidr ip mac : string)
  | AddDhcpRouteOption (bridge cidr ip dst : string)
  | GetRouter (id : string)
  | CreateRouter (kwargs : dict value)
  | DeleteRouter (id : string)
  | AddRouterChains (router pre post : string)
  | AddRouterPort (router : string) (kwargs : dict value)
  | Link (port peer : string)
  | Unlink (port : string)
  | GetLinkPort (router peer_router : string)
  | GetRoutes (router : string)
  | AddRouterRoute (router : string) (kwargs : dict value)
  | DeleteRoute (id : string)
  | RemoveStaticRoute (router ip : string)
  | AddStaticNat (tenant chain_name : string) (from_ip to_ip : value)
      (port nat_type : string) (props : dict value)
  | AddDynamicSnat (tenant pre post gw_ip port : string)
      (props : dict value).

Inductive log_level := WARN | ERROR.

(** ** The logical model kept in the relational store *)

Record fixed_ip := FixedIp {
  subnet_id : string;
  ip_address : string
}.

Record subnet := Subnet {
  subnet_network_id : string;
  subnet_cidr : string;
  subnet_gateway_ip : option string;
  subnet_ip_version : Z;
  subnet_enable_dhcp : bool
}.

Record network := Network {
  network_id : string;
  network_external : bool;
  network_subnets : list string
}.

Record port := Port {
  port_id : string;
  port_tenant_id : string;
  port_network_id : string;
  port_mac_address : string;
  port_fixed_ips : list fixed_ip;
  port_device_owner : string;
  port_device_id : string;
  port_admin_state_up : bool;
  port_security_groups : list string
}.

Record sg_rule := SgRule {
  sgr_id : string;
  sgr_tenant_id : string;
  sgr_security_group_id : string;
  sgr_direction : string;
  sgr_remote_group_id : option string;
  sgr_remote_ip_prefix : option string;
  sgr_port_range_min : option Z;
  sgr_port_range_max : option Z;
  sgr_protocol : option string;
  sgr_ethertype : string
}.

Record security_group := SecurityGroup {
  sg_id : string;
  sg_name : string;
  sg_tenant_id : string;
  sg_security_group_rules : list sg_rule
}.

Record floatingip := FloatingIp {
  fip_id : string;
  fip_floating_ip_address : string;
  fip_fixed_ip_address : option string;
  fip_router_id : option string;
  fip_port_id : option string
}.

Record sg_binding := SgBinding {
  binding_port_id : string;
  binding_security_group_id : string
}.

(** The body of an update of a floating IP: the port it is to be bound
    to, if any. *)
Record floatingip_request := FloatingIpRequest {
  req_port_id : option string;
  req_fixed_ip_address : option string
}.

Record gw_info := GwInfo {
  gw_network_id : string;
  gw_enable_snat : option bool
}.

Record router := Router {
  router_id : string;
  router_tenant_id : string;
  router_name : string;
  router_admin_state_up : bool;
  router_status : string;
  router_gw_port_id : option string;
  router_external_gateway_info : option gw_info
}.

(** The body of a router creation. *)
Record router_request := RouterRequest {
  rq_tenant_id : option string;
  rq_name : string;
  rq_admin_state_up : bool;
  rq_external_gateway_info : option gw_info
}.

Record interface_info := InterfaceInfo {
  ii_subnet_id : option string;
  ii_port_id : option string
}.

(** What [add_router_interface] of the base class returns. *)
Record router_interface_info := RouterInterfaceInfo {
  info_id : string;
  info_tenant_id : string;
  info_port_id : string;
  info_subnet_id : string
}.

(** The request context: only [is_admin] is read by the plugin itself. *)
Record context := Context {
  is_admin : bool
}.

(** Helpers of [neutron.plugins.midonet.common.net_util], which is not
    part of the sources at hand: they are parameters of the development. *)
Class NetUtil := {
  net_addr : string → string * Z;
  get_protocol_value : option string → value;
  get_ethertype_value : string → value
}.

(** The methods the plugin inherits from the database mixins
    ([super(MidonetPluginV2, self)....] and the [self._...] helpers of the
    base classes). Their code is not part of the sources at hand: the
    store is an abstract type [Db] and each method a function on it, a
    read returning a result and a write returning the new store too. *)
Class NeutronDb (Db : Type) := {
  _get_subnet : Db → string → result subnet;
  super_get_network : Db → string → result network;
  super_get_port : Db → string → result port;
  _get_port : Db → string → result port;
  super_create_port : Db → port → result (port * Db);
  _ensure_default_security_group_on_port : Db → port → result (unit * Db);
  _get_security_groups_on_port : Db → port → result (option (list string));
  _process_port_create_security_group :
    Db → port → option (list string) → result (unit * Db);
  super_get_security_group : Db → string → result (option security_group);
  _get_port_security_group_bindings :
    Db → list string → result (list sg_binding);
  super_delete_security_group : Db → string → result (unit * Db);
  create_security_group_rule_bulk_native :
    Db → list sg_rule → result (list sg_rule * Db);
  super_get_floatingip : Db → string → result floatingip;
  super_update_floatingip :
    Db → string → floatingip_request → result (floatingip * Db);
  _get_tenant_id_for_create : Db → context → option string → result string;
  _get_router : Db → string → result router;
  session_add_router : Db → router → result (unit * Db);
  _update_router_gw_info : Db → string → gw_info → result (unit * Db);
  _make_router_dict : Db → string → result router;
  super_add_router_interface :
    Db → string → interface_info → result (router_interface_info * Db);
  remove_router_interface :
    Db → string → router_interface_info → result (unit * Db);
  (** [session.query(models_v2.Port).filter_by(network_id=...,
      device_owner='network:dhcp').all()] *)
  query_dhcp_ports : Db → string → list port;
  (** What the other writers of the store do while the plugin sleeps for
      so many seconds. *)
  db_sleep : Db → nat → Db
}.

(** ** The world the plugin runs in, and the monad of its methods *)

Section plugin.
Context {Db : Type} `{!NeutronDb Db} `{!NetUtil}.

(** [mido] is the state of the remote controller and [calls] the client
    calls issued so far, oldest first. [faults n] tells whether the call
    number [n] fails and with what, [ids n] is the id the controller
    gives to an object created by call number [n]. [provider_router_id]
    is the configured id and [provider_router] the cached handle. *)
Record world := World {
  mido : midonet;
  calls : list call;
  faults : nat → option exn;
  ids : nat → string;
  db : Db;
  provider_router_id : string;
  provider_router : option router_ref;
  clock : nat;
  logs : list (log_level * string)
}.

Definition set_mido (m : midonet) (w : world) : world :=
  World m (calls w) (faults w) (ids w) (db w) (provider_router_id w)
    (provider_router w) (clock w) (logs w).
Definition add_call (c : call) (w : world) : world :=
  World (mido w) (calls w ++ [c]) (faults w) (ids w) (db w)
    (provider_router_id w) (provider_router w) (clock w) (logs w).
Definition set_db (d : Db) (w : world) : world :=
  World (mido w) (calls w) (faults w) (ids w) d (provider_router_id w)
    (provider_router w) (clock w) (logs w).
Definition set_provider_router (r : option router_ref) (w : world) : world :=
  World (mido w) (calls w) (faults w) (ids w) (db w) (provider_router_id w)
    r (clock w) (logs w).
Definition add_clock (n : nat) (w : world) : world :=
  World (mido w) (calls w) (faults w) (ids w) (db w) (provider_router_id w)
    (provider_router w) (clock w + n) (logs w).
Definition add_log (l : log_level * string) (w : world) : world :=
  World (mido w) (calls w) (faults w) (ids w) (db w) (provider_router_id w)
    (provider_router w) (clock w) (logs w ++ [l]).

(** A method: from a world to a value or an exception, and a new world. *)
Definition M (A : Type) : Type := world → result A * world.

#[global] Instance M_ret : MRet M := λ A a w, (Ok a, w).
#[global] Instance M_bind : MBind M := λ A B f m w,
  match m w with
  | (Ok a, w') => f a w'
  | (Raise e, w') => (Raise e, w')
  end.

Definition raise {A} (e : exn) : M A := λ w, (Raise e, w).

(** [try: m except Exception as e: h e] *)
Definition try_except {A} (m : M A) (h : exn → M A) : M A := λ w,
  match m w with
  | (Ok a, w') => (Ok a, w')
  | (Raise e, w') => h e w'
  end.

(** [for x in l: f x] *)
Fixpoint for_ {X} (l : list X) (f : X → M unit) : M unit :=
  match l with
  | [] => mret ()
  | x :: l' => f x;; for_ l' f
  end.

Definition of_result {A} (r : result A) : M A := λ w, (r, w).

Definition of_option {A} (o : option A) (e : exn) : M A :=
  match o with Some a => mret a | None => raise e end.

(** A read of the store, a write to it. *)
Definition db_read {A} (f : Db → result A) : M A := λ w, (f (db w), w).

Definition db_write {A} (f : Db → result (A * Db)) : M A := λ w,
  match f (db w) with
  | Ok (a, d) => (Ok a, set_db d w)
  | Raise e => (Raise e, w)
  end.

(** Modelled from the spec: [with session.begin(subtransactions=True)] is
    a scope of the store, which is not part of the sources at hand; the
    writes made in it are rolled back when the scope is left by an
    exception. *)
Definition with_session {A} (m : M A) : M A := λ w,
  match m w with
  | (Ok a, w') => (Ok a, w')
  | (Raise e, w') => (Raise e, set_db (db w) w')
  end.

Definition LOG (lvl : log_level) (msg : string) : M unit := λ w,
  (Ok (), add_log (lvl, msg) w).

(** A call to the remote controller: it is recorded, it fails when the
    fault schedule says so, and otherwise has its effect [eff] on the
    controller, which may use the id the controller hands out. *)
Definition remote {A} (c : call)
    (eff : string → midonet → result A * midonet) : M A := λ w,
  let n := length (calls w) in
  match faults w n with
  | Some e => (Raise e, add_call c w)
  | None =>
      let '(r, m) := eff (ids w n) (mido w) in
      (r, set_mido m (add_call c w))
  end.

(** ** The MidoNet client ([midonet_lib.MidoClient]) *)

Definition chain_key (c : chain_ref) : string * string :=
  (c_tenant c, c_name c).

(** The position a rule is created at: [position] of the keyword
    arguments, 1 when it is not given. *)
Definition position_of (kwargs : dict value) : nat :=
  match dict_get kwargs "position" with
  | Some (VInt z) => Z.to_nat z
  | _ => 1
  end.

(** Modelled from the spec: the rule engine of the controller is not part
    of the sources at hand. Positions count from 1; a rule inserted at
    position [p] becomes the [p]-th rule and the rules that were at
    position [p] or later move down by one. *)
Definition insert_at {A} (p : nat) (r : A) (l : list A) : list A :=
  take (p - 1) l ++ r :: drop (p - 1) l.

(** Modelled from the spec: [midonet_lib.MidoClient] is not part of the
    sources at hand. [get_chain_by_name] is the lookup by scope and name
    ([None] when there is no such chain), [create_chain] makes an empty
    chain, [get_rules] lists the rules of a chain in evaluation order,
    [add_chain_rule] creates a rule at its position. *)
Definition get_chain_by_name (tenant name : string) : M (option chain_ref) :=
  remote (GetChainByName tenant name) (λ _ m,
    (Ok (ChainRef tenant name ∘ chain_id <$> chains m !! (tenant, name)), m)).

Definition create_chain (tenant name : string) : M chain_ref :=
  remote (CreateChain tenant name) (λ fresh m,
    (Ok (ChainRef tenant name fresh),
     set_chains (insert (tenant, name) (Chain fresh [])) m)).

Definition get_rules (c : chain_ref) : M (list rule) :=
  remote (GetRules (c_tenant c) (c_name c)) (λ _ m,
    match chains m !! chain_key c with
    | Some ch => (Ok (chain_rules ch), m)
    | None => (Raise (MidonetResourceNotFound "Chain" (c_id c)), m)
    end).

Definition add_chain_rule (c : chain_ref) (action : string)
    (kwargs : dict value) : M rule :=
  remote (AddChainRule (c_tenant c) (c_name c) action kwargs) (λ fresh m,
    match chains m !! chain_key c with
    | Some ch =>
        let r := Rule fresh action kwargs in
        (Ok r,
         set_chains (insert (chain_key c)
           (Chain (chain_id ch)
              (insert_at (position_of kwargs) r (chain_rules ch)))) m)
    | None => (Raise (MidonetResourceNotFound "Chain" (c_id c)), m)
    end).

(** ** Rule chains of ports and security groups *)

(** [kwargs.pop(k, None)] *)
Definition kw_pop (k : string) (kwargs : dict value)
    : value * dict value :=
  (default VNone (dict_get kwargs k), dict_del k kwargs).

(** [kwargs[a], kwargs[l] = net_util.net_addr(addr)] when [addr] is
    truthy; [net_addr] splits a string, so another truthy value fails. *)
Definition set_net_addr (a l : string) (addr : value) (kwargs : dict value)
    : result (dict value) :=
  if value_truthy addr then
    match addr with
    | VStr s =>
        let '(na, nl) := net_addr s in
        Ok (dict_set l (VInt nl) (dict_set a (VStr na) kwargs))
    | _ => Raise (AttributeError "split")
    end
  else Ok kwargs.

Definition port_range (s e : value) : value :=
  VDict [("start", s); ("end", e)].

(** The first part of [_add_chain_rule]: "convert to the keys and values
    that midonet client understands". It has no effect of its own. *)
Definition midonet_kwargs (kwargs : dict value) : result (dict value) :=
  let nw_proto := dict_get kwargs "nw_proto" in
  let '(src_addr, kwargs) := kw_pop "src_addr" kwargs in
  let '(dst_addr, kwargs) := kw_pop "dst_addr" kwargs in
  let '(src_port_from, kwargs) := kw_pop "src_port_from" kwargs in
  let '(src_port_to, kwargs) := kw_pop "src_port_to" kwargs in
  let '(dst_port_from, kwargs) := kw_pop "dst_port_from" kwargs in
  let '(dst_port_to, kwargs) := kw_pop "dst_port_to" kwargs in
  match set_net_addr "nw_src_addr" "nw_src_length" src_addr kwargs with
  | Raise e => Raise e
  | Ok kwargs =>
  match set_net_addr "nw_dst_addr" "nw_dst_length" dst_addr kwargs with
  | Raise e => Raise e
  | Ok kwargs =>
      let kwargs :=
        dict_set "tp_src" (port_range src_port_from src_port_to) kwargs in
      let kwargs :=
        dict_set "tp_dst" (port_range dst_port_from dst_port_to) kwargs in
      Ok (if value_is_one nw_proto then
            dict_set "tp_dst" (port_range dst_port_to dst_port_to)
              (dict_set "tp_src" (port_range src_port_from src_port_from)
                 kwargs)
          else kwargs)
  end end.

(** [_add_chain_rule]: the conversion, then [client.add_chain_rule]; a
    chain that is [None] makes the client fail. *)
Definition _add_chain_rule (chain : option chain_ref) (action : string)
    (kwargs : dict value) : M rule :=
  kwargs ← of_result (midonet_kwargs kwargs);
  chain ← of_option chain (AttributeError "add_rule");
  add_chain_rule chain action kwargs.

Definition _get_port_chains (p : port)
    : M (option chain_ref * option chain_ref) :=
  let tenant_id := port_tenant_id p in
  let chain_names := _port_chain_names (port_id p) in
  inbound ← of_option (dict_get chain_names "inbound") (KeyError "inbound");
  in_chain ← get_chain_by_name tenant_id inbound;
  outbound ← of_option (dict_get chain_names "outbound")
               (KeyError "outbound");
  out_chain ← get_chain_by_name tenant_id outbound;
  mret (in_chain, out_chain).

Definition _get_sg_chains (tenant_id sg_id : string)
    : M (option chain_ref * option chain_ref) :=
  let chain_names := _sg_chain_names sg_id in
  egress ← of_option (dict_get chain_names "egress") (KeyError "egress");
  egress_chain ← get_chain_by_name tenant_id egress;
  ingress ← of_option (dict_get chain_names "ingress") (KeyError "ingress");
  ingress_chain ← get_chain_by_name tenant_id ingress;
  mret (egress_chain, ingress_chain).

(** One jump from a port chain to a chain of a security group, at the
    position [len(port_chain.get_rules())]. The arguments of the call are
    evaluated from left to right. *)
Definition add_sg_jump (port_chain sg_chain : option chain_ref) : M unit :=
  sg ← of_option sg_chain (AttributeError "get_id");
  pc ← of_option port_chain (AttributeError "get_rules");
  rules ← get_rules pc;
  _add_chain_rule port_chain "jump"
    ([("jump_chain_id", VStr (c_id sg));
         ("jump_chain_name", VStr (c_name sg));
         ("position", VInt (Z.of_nat (length rules)))]);;
  mret ().

Definition _add_sg_jumps_to_port_chains
    (port_inbound port_outbound sg_egress sg_ingress : option chain_ref)
    : M unit :=
  for_ [(port_inbound, sg_egress); (port_outbound, sg_ingress)]
    (λ '(port_chain, sg_chain), add_sg_jump port_chain sg_chain).

Definition _initialize_port_chains (p : port)
    (in_chain out_chain : option chain_ref) (sg_ids : option (list string))
    : M unit :=
  let tenant_id := port_tenant_id p in
  for_ [in_chain; out_chain] (λ chain,
    _add_chain_rule chain "drop"
      ([("dl_type", VInt ETHERTYPE_ARP); ("inv_dl_type", VBool true);
           ("position", VInt 1)]);; mret ());;
  _add_chain_rule in_chain "accept"
    ([("match_return_flow", VBool true); ("position", VInt 1)]);;
  _add_chain_rule in_chain "drop"
    ([("dl_src", VStr (port_mac_address p)); ("inv_dl_src", VBool true);
         ("position", VInt 1)]);;
  for_ (port_fixed_ips p) (λ fixed_ip,
    subnet ← db_read (λ d, _get_subnet d (subnet_id fixed_ip));
    if Z.eqb (subnet_ip_version subnet) 6 then
      _add_chain_rule in_chain "drop"
        ([("position", VInt 1);
             ("src_addr", VStr (ip_address fixed_ip +:+ "/128"));
             ("inv_nw_src", VBool true); ("dl_type", VInt ETHERTYPE_IPV6)]);;
      mret ()
    else
      _add_chain_rule in_chain "drop"
        ([("position", VInt 1);
             ("src_addr", VStr (ip_address fixed_ip +:+ "/32"));
             ("inv_nw_src", VBool true); ("dl_type", VInt ETHERTYPE_IPV4)]);;
      mret ());;
  _add_chain_rule out_chain "accept"
    ([("match_return_flow", VBool true); ("position", VInt 1)]);;
  match sg_ids with
  | Some ((_ :: _) as sg_ids) =>
      for_ sg_ids (λ sg_id,
        '(sg_egress, sg_ingress) ← _get_sg_chains tenant_id sg_id;
        _add_sg_jumps_to_port_chains in_chain out_chain sg_egress sg_ingress)
  | _ => mret ()
  end.

(** [OS_SG_RULE_KEY: str(sg_rule["id"])] and the translation of a rule of
    a security group into an accept rule of the chain of its direction. *)
Definition _create_accept_chain_rule (sg_rule : sg_rule)
    (chain : option chain_ref) : M rule :=
  let direction := sgr_direction sg_rule in
  let tenant_id := sgr_tenant_id sg_rule in
  chain_name ← of_option
    (dict_get (_sg_chain_names (sgr_security_group_id sg_rule)) direction)
    (KeyError direction);
  chain ← match chain with
          | None => get_chain_by_name tenant_id chain_name
          | Some c => mret (Some c)
          end;
  let props := VDict [(OS_SG_RULE_KEY, VStr (sgr_id sg_rule))] in
  let src_port_from := VNone in
  let src_port_to := VNone in
  let dst_port_from := opt_int (sgr_port_range_min sg_rule) in
  let dst_port_to := opt_int (sgr_port_range_max sg_rule) in
  let '(src_ipg_id, dst_ipg_id, src_addr, dst_addr, match_forward_flow) :=
    if String.eqb direction "egress" then
      (VNone, opt_str (sgr_remote_group_id sg_rule),
       VNone, opt_str (sgr_remote_ip_prefix sg_rule), true)
    else
      (opt_str (sgr_remote_group_id sg_rule), VNone,
       opt_str (sgr_remote_ip_prefix sg_rule), VNone, false) in
  _add_chain_rule chain "accept"
    ([("properties", props);
         ("match_forward_flow", VBool match_forward_flow);
         ("ip_addr_group_src", src_ipg_id);
         ("ip_addr_group_dst", dst_ipg_id);
         ("src_addr", src_addr); ("dst_addr", dst_addr);
         ("src_port_from", src_port_from); ("src_port_to", src_port_to);
         ("dst_port_from", dst_port_from); ("dst_port_to", dst_port_to);
         ("nw_proto", get_protocol_value (sgr_protocol sg_rule));
         ("dl_type", get_ethertype_value (sgr_ethertype sg_rule))]).

(** ** More of the MidoNet client *)

(** Modelled from the spec: the rest of [midonet_lib.MidoClient], which
    is not part of the sources at hand, as the remote controller boundary
    describes it: create, get and delete of bridges, routers, ports,
    chains, rules, routes and IP address groups, [link] of two ports,
    removal of rules by property. The DHCP tables of the bridges are not
    part of the state: the calls that change them are only recorded. *)
Definition get_bridge (id : string) : M string :=
  remote (GetBridge id) (λ _ m, (Ok id, m)).

Definition add_bridge_port (bridge : string) (admin_state_up : bool)
    : M mport :=
  remote (AddBridgePort bridge admin_state_up) (λ fresh m,
    let p := MPort fresh bridge None
               [("admin_state_up", VBool admin_state_up)] in
    (Ok p, set_ports (λ ps, ps ++ [p]) m)).

Definition delete_port_chains (port : string) (m : midonet) : midonet :=
  match list_find (λ p, mport_id p = port) (ports m) with
  | Some (_, p) =>
      set_chains (filter (λ kc,
        kw_str_of (mport_kwargs p) "inbound" ≠ Some (chain_id kc.2) ∧
        kw_str_of (mport_kwargs p) "outbound" ≠ Some (chain_id kc.2))) m
  | None => m
  end.

Definition delete_port (id : string) (delete_chains : bool) : M unit :=
  remote (DeletePort id delete_chains) (λ _ m,
    let m := if delete_chains then delete_port_chains id m else m in
    (Ok (), set_ports (filter (λ p, mport_id p ≠ id)) m)).

Definition update_port_chains (port : mport) (inbound outbound : string)
    : M unit :=
  remote (UpdatePortChains (mport_id port) inbound outbound) (λ _ m,
    (Ok (),
     set_ports (map (λ p,
       if String.eqb (mport_id p) (mport_id port) then
         MPort (mport_id p) (mport_device p) (mport_peer p)
           (dict_set "outbound" (VStr outbound)
              (dict_set "inbound" (VStr inbound) (mport_kwargs p)))
       else p)) m)).

Definition remove_chain_rule (id : string) : M unit :=
  remote (RemoveChainRule id) (λ _ m,
    (Ok (),
     set_chains (fmap (λ ch,
       Chain (chain_id ch)
         (filter (λ r, rule_id r ≠ id) (chain_rules ch)))) m)).

Definition remove_rules_by_property (tenant name key value : string)
    : M unit :=
  remote (RemoveRulesByProperty tenant name key value) (λ _ m,
    match chains m !! (tenant, name) with
    | Some ch =>
        (Ok (),
         set_chains (insert (tenant, name)
           (Chain (chain_id ch)
              (filter (λ r, has_property key value r = false)
                 (chain_rules ch)))) m)
    | None => (Raise (MidonetResourceNotFound "Chain" name), m)
    end).

Definition delete_chains_by_names (tenant : string) (names : list string)
    : M unit :=
  remote (DeleteChainsByNames tenant names) (λ _ m,
    (Ok (),
     set_chains (λ cs, foldr (λ n, delete (tenant, n)) cs names) m)).

Definition delete_ip_addr_group (id : string) : M unit :=
  remote (DeleteIpAddrGroup id) (λ _ m,
    (Ok (), set_ip_addr_groups (delete id) m)).

Definition add_ip_addr_to_ip_addr_group (group ip : string) : M unit :=
  remote (AddIpAddrToIpAddrGroup group ip) (λ _ m,
    match ip_addr_groups m !! group with
    | Some ips =>
        (Ok (), set_ip_addr_groups (insert group (ips ++ [ip])) m)
    | None => (Raise (MidonetResourceNotFound "IpAddrGroup" group), m)
    end).

Definition add_dhcp_host (bridge cidr ip mac : string) : M unit :=
  remote (AddDhcpHost bridge cidr ip mac) (λ _ m, (Ok (), m)).

Definition add_dhcp_route_option (bridge cidr ip dst : string) : M unit :=
  remote (AddDhcpRouteOption bridge cidr ip dst) (λ _ m, (Ok (), m)).

Definition get_router (id : string) : M router_ref :=
  remote (GetRouter id) (λ _ m,
    match routers m !! id with
    | Some tenant => (Ok (RouterRef id tenant), m)
    | None => (Raise (MidonetResourceNotFound "Router" id), m)
    end).

Definition client_create_router (kwargs : dict value) : M router_ref :=
  remote (CreateRouter kwargs) (λ fresh m,
    let tenant := default EmptyString (kw_str_of kwargs "tenant_id") in
    (Ok (RouterRef fresh tenant), set_routers (insert fresh tenant) m)).

Definition client_delete_router (id : string) : M unit :=
  remote (DeleteRouter id) (λ _ m, (Ok (), set_routers (delete id) m)).

Definition add_router_chains (r : router_ref) (pre post : string) : M unit :=
  remote (AddRouterChains (r_id r) pre post) (λ fresh m,
    (Ok (),
     set_chains (λ cs,
       <[(r_tenant r, post) := Chain (fresh +:+ "-post") []]>
         (<[(r_tenant r, pre) := Chain (fresh +:+ "-pre") []]> cs)) m)).

Definition add_router_port (r : router_ref) (kwargs : dict value)
    : M mport :=
  remote (AddRouterPort (r_id r) kwargs) (λ fresh m,
    let p := MPort fresh (r_id r) None kwargs in
    (Ok p, set_ports (λ ps, ps ++ [p]) m)).

Definition link (port : mport) (peer : string) : M unit :=
  remote (Link (mport_id port) peer) (λ _ m,
    (Ok (),
     set_ports (map (λ p,
       if String.eqb (mport_id p) (mport_id port) then
         MPort (mport_id p) (mport_device p) (Some peer) (mport_kwargs p)
       else if String.eqb (mport_id p) peer then
         MPort (mport_id p) (mport_device p) (Some (mport_id port))
           (mport_kwargs p)
       else p)) m)).

(** The port of [peer_router] that is linked to a port of [router]. *)
Definition find_link_port (ps : list mport) (router peer_router : string)
    : option mport :=
  find (λ p,
    String.eqb (mport_device p) peer_router &&
    existsb (λ q,
      String.eqb (mport_device q) router &&
      match mport_peer p with
      | Some x => String.eqb x (mport_id q)
      | None => false
      end) ps) ps.

Definition get_link_port (r : router_ref) (peer_router : string)
    : M (option mport) :=
  remote (GetLinkPort (r_id r) peer_router) (λ _ m,
    (Ok (find_link_port (ports m) (r_id r) peer_router), m)).

Definition get_routes (r : router_ref) : M (list route) :=
  remote (GetRoutes (r_id r)) (λ _ m,
    (Ok (filter (λ x, route_router x = r_id r) (routes m)), m)).

Definition add_router_route (r : router_ref) (kwargs : dict value)
    : M unit :=
  remote (AddRouterRoute (r_id r) kwargs) (λ fresh m,
    (Ok (), set_routes (λ rs, rs ++ [Route fresh (r_id r) kwargs]) m)).

Definition delete_route (id : string) : M unit :=
  remote (DeleteRoute id) (λ _ m,
    (Ok (), set_routes (filter (λ x, route_id x ≠ id)) m)).

(** A route of [router] to the single address [ip]. *)
Definition is_host_route (router ip : string) (x : route) : bool :=
  String.eqb (route_router x) router &&
  match kw_str_of (route_kwargs x) "dst_network_addr",
        kw_int_of (route_kwargs x) "dst_network_length" with
  | Some a, Some l => String.eqb a ip && Z.eqb l 32
  | _, _ => false
  end.

Definition remove_static_route (r : router_ref) (ip : string) : M unit :=
  remote (RemoveStaticRoute (r_id r) ip) (λ _ m,
    (Ok (),
     set_routes (filter (λ x, is_host_route (r_id r) ip x = false)) m)).

(** A static NAT rule of [nat_type] ([dnat] or [snat]) from [from_ip] to
    [to_ip] through [port], tagged with [props]. *)
Definition add_static_nat (tenant chain_name : string)
    (from_ip to_ip : value) (port nat_type : string) (props : dict value)
    : M rule :=
  remote (AddStaticNat tenant chain_name from_ip to_ip port nat_type props)
    (λ fresh m,
      match chains m !! (tenant, chain_name) with
      | Some ch =>
          let r := Rule fresh nat_type
                     [("nat_from", from_ip); ("nat_to", to_ip);
                      ("port", VStr port); ("properties", VDict props)] in
          (Ok r,
           set_chains (insert (tenant, chain_name)
             (Chain (chain_id ch) (insert_at 1 r (chain_rules ch)))) m)
      | None => (Raise (MidonetResourceNotFound "Chain" chain_name), m)
      end).

(** The pair of dynamic SNAT rules of a gateway, tagged with [props]. *)
Definition add_dynamic_snat (tenant pre post gw_ip port : string)
    (props : dict value) : M unit :=
  remote (AddDynamicSnat tenant pre post gw_ip port props) (λ fresh m,
    match chains m !! (tenant, pre), chains m !! (tenant, post) with
    | Some cpre, Some cpost =>
        let rpre := Rule (fresh +:+ "-pre") "rev_snat"
                      [("nw_dst_addr", VStr gw_ip); ("port", VStr port);
                       ("properties", VDict props)] in
        let rpost := Rule (fresh +:+ "-post") "snat"
                       [("nat_to", VStr gw_ip); ("port", VStr port);
                        ("properties", VDict props)] in
        (Ok (),
         set_chains (λ cs,
           <[(tenant, post) :=
               Chain (chain_id cpost) (insert_at 1 rpost (chain_rules cpost))]>
             (<[(tenant, pre) :=
                  Chain (chain_id cpre)
                    (insert_at 1 rpre (chain_rules cpre))]> cs)) m)
    | _, _ => (Raise (MidonetResourceNotFound "Chain" pre), m)
    end).

(** Modelled from the spec: [excutils.save_and_reraise_exception] is not
    part of the sources at hand. The body of the [with] runs and the
    exception that was being handled propagates, also when the body
    itself fails: "compensation failures are logged, not substituted". *)
Definition save_and_reraise_exception {A} (ex : exn) (body : M unit)
    : M A := λ w,
  match body w with
  | (Ok _, w') => (Raise ex, w')
  | (Raise e, w') => (Raise ex, add_log (ERROR, "compensation failed") w')
  end.

(** [time.sleep(delay)]: the clock advances and the store is what the
    other writers made of it in the meantime. *)
Definition time_sleep (delay : nat) : M unit := λ w,
  (Ok (), add_clock delay (set_db (db_sleep (db w) delay) w)).

(** ** Kinds of ports *)

(** The device owners of [l3_db] and [constants]. *)
Definition DEVICE_OWNER_ROUTER_INTF := "network:router_interface".
Definition DEVICE_OWNER_ROUTER_GW := "network:router_gateway".
Definition DEVICE_OWNER_FLOATINGIP := "network:floatingip".
Definition NET_STATUS_ERROR := "ERROR".

Definition _is_router_interface_port (p : port) : bool :=
  String.eqb (port_device_owner p) DEVICE_OWNER_ROUTER_INTF.

Definition _is_router_gw_port (p : port) : bool :=
  String.eqb (port_device_owner p) DEVICE_OWNER_ROUTER_GW.

Definition _is_fip_port (p : port) : bool :=
  String.eqb (port_device_owner p) DEVICE_OWNER_FLOATINGIP.

Definition _is_dhcp_port (p : port) : bool :=
  String.prefix "network:dhcp" (port_device_owner p).

Definition _is_vif_port (p : port) : bool :=
  negb (_is_dhcp_port p || _is_fip_port p || _is_router_gw_port p ||
        _is_router_interface_port p).

(** ** The provider router and its routes *)

Definition _get_provider_router : M router_ref := λ w,
  match provider_router w with
  | None =>
      match get_router (provider_router_id w) w with
      | (Ok r, w') => (Ok r, set_provider_router (Some r) w')
      | (Raise e, w') => (Raise e, w')
      end
  | Some r => (Ok r, w)
  end.

(** [_add_route_to_provider(bridge, ip)], [bridge] being the id of the
    device whose link to the provider router carries the route. *)
Definition _add_route_to_provider (bridge ip : string) : M unit :=
  provider_router ← _get_provider_router;
  link_port ← get_link_port provider_router bridge;
  link_port ← of_option link_port (AttributeError "get_peer_id");
  add_router_route provider_router
    [("type", VStr "Normal"); ("src_network_addr", VStr "0.0.0.0");
     ("src_network_length", VInt 0); ("dst_network_addr", VStr ip);
     ("dst_network_length", VInt 32);
     ("next_hop_port", opt_str (mport_peer link_port));
     ("weight", VInt 100)].

Definition _remove_route_from_provider (ip : string) : M unit :=
  provider_router ← _get_provider_router;
  rs ← get_routes provider_router;
  for_ rs (λ route,
    if bool_decide (kw_str_of (route_kwargs route) "dst_network_addr"
                    = Some ip) &&
       bool_decide (kw_int_of (route_kwargs route) "dst_network_length"
                    = Some 32%Z)
    then delete_route (route_id route)
    else mret ()).

(** ** Floating IPs *)

Definition _get_nat_ips (type : string) (fip : floatingip)
    : result (value * value) :=
  if String.eqb type "pre-routing" then
    Ok (VStr (fip_floating_ip_address fip),
        opt_str (fip_fixed_ip_address fip))
  else if String.eqb type "post-routing" then
    Ok (opt_str (fip_fixed_ip_address fip),
        VStr (fip_floating_ip_address fip))
  else Raise (ValueError "Invalid nat_type").

(** [client.get_router(fip["router_id"])]; the client finds no router
    for [None]. *)
Definition get_fip_router (fip : floatingip) : M router_ref :=
  match fip_router_id fip with
  | Some id => get_router id
  | None => raise (MidonetResourceNotFound "Router" "None")
  end.

(** The two chains are visited in the order of the dict literal of
    [_nat_chain_names]. *)
Definition _remove_nat_rules (fip : floatingip) : M unit :=
  router ← get_fip_router fip;
  provider_router ← _get_provider_router;
  remove_static_route provider_router (fip_floating_ip_address fip);;
  let chain_names := _nat_chain_names (r_id router) in
  for_ chain_names (λ '(_type, name),
    remove_rules_by_property (r_tenant router) name
      OS_FLOATING_IP_RULE_KEY (fip_id fip)).

Definition _add_nat_rules (link_port : option mport) (fip : floatingip)
    : M unit :=
  router ← get_fip_router fip;
  let props := [(OS_FLOATING_IP_RULE_KEY, VStr (fip_id fip))] in
  let tenant_id := r_tenant router in
  let chain_names := _nat_chain_names (r_id router) in
  for_ chain_names (λ '(chain_type, name),
    '(src_ip, target_ip) ← of_result (_get_nat_ips chain_type fip);
    let nat_type :=
      if String.eqb chain_type "pre-routing" then "dnat" else "snat" in
    link_port ← of_option link_port (AttributeError "get_id");
    add_static_nat tenant_id name src_ip target_ip (mport_id link_port)
      nat_type props;;
    mret ()).

Definition _assoc_fip (fip : floatingip) : M unit :=
  router ← get_fip_router fip;
  _add_route_to_provider (r_id router) (fip_floating_ip_address fip);;
  provider_router ← _get_provider_router;
  link_port ← get_link_port provider_router (r_id router);
  _add_nat_rules link_port fip.

Definition _disassoc_fip (fip : floatingip) : M unit :=
  _remove_route_from_provider (fip_floating_ip_address fip);;
  _remove_nat_rules fip.

Definition update_floatingip (id : string) (body : floatingip_request)
    : M floatingip :=
  with_session (
    old_fip ← db_read (λ d, super_get_floatingip d id);
    new_fip ← db_write (λ d, super_update_floatingip d id body);
    let old_fip_port := fip_port_id old_fip in
    let new_fip_port := fip_port_id new_fip in
    (if truthy old_fip_port && negb (truthy new_fip_port) then
       _disassoc_fip old_fip
     else if negb (truthy old_fip_port) && truthy new_fip_port then
       _assoc_fip new_fip
     else if truthy old_fip_port && truthy new_fip_port then
       if negb (bool_decide (old_fip_port = new_fip_port)) then
         _disassoc_fip old_fip;; _assoc_fip new_fip
       else mret ()
     else mret ());;
    mret new_fip).

(** ** Security groups *)

Definition delete_security_group (ctx : context) (id : string) : M unit :=
  with_session (
    sg ← db_read (λ d, super_get_security_group d id);
    sg ← of_option sg (SecurityGroupNotFound id);
    (if String.eqb (sg_name sg) "default" && negb (is_admin ctx) then
       raise SecurityGroupCannotRemoveDefault
     else mret ());;
    let sg_id := sg_id sg in
    let filters := [sg_id] in
    bindings ← db_read (λ d, _get_port_security_group_bindings d filters);
    (match bindings with
     | _ :: _ => raise (SecurityGroupInUse sg_id)
     | [] => mret ()
     end);;
    let tenant_id := sg_tenant_id sg in
    delete_chains_by_names tenant_id (map snd (_sg_chain_names sg_id));;
    delete_ip_addr_group sg_id;;
    db_write (λ d, super_delete_security_group d id)).

(** The rules are numbered from 1 as the loop counts them; [rules[j]] for
    [j] in [xrange(0, i)] are the first [i] rules. *)
Definition create_security_group_rule_bulk (security_group_rule : list sg_rule)
    : M (list sg_rule) :=
  with_session (
    rules ← db_write (λ d,
      create_security_group_rule_bulk_native d security_group_rule);
    for_ (imap (λ i rule, (S i, rule)) rules) (λ '(i, rule),
      try_except
        (_create_accept_chain_rule rule None;;
         for_ (take i rules) (λ r, remove_chain_rule (sgr_id r)))
        (λ ex,
          LOG ERROR "Failed to create MidoNet rule";;
          for_ (take i rules) (λ r, remove_chain_rule (sgr_id r));;
          raise ex));;
    mret rules).

(** ** Ports *)

Definition _bind_port_to_sgs (p : port) (sg_ids : option (list string))
    : M unit :=
  db_write (λ d, _process_port_create_security_group d p sg_ids);;
  match sg_ids with
  | Some sg_ids =>
      let tenant_id := port_tenant_id p in
      '(in_chain, out_chain) ← _get_port_chains p;
      for_ sg_ids (λ sg_id,
        for_ (port_fixed_ips p) (λ ip_addr,
          add_ip_addr_to_ip_addr_group sg_id (ip_address ip_addr));;
        match in_chain with
        | Some _ =>
            '(egress_chain, ingress_chain) ← _get_sg_chains tenant_id sg_id;
            _add_sg_jumps_to_port_chains in_chain out_chain
              egress_chain ingress_chain
        | None => mret ()
        end)
  | None => mret ()
  end.

(** What [create_port] does inside its [try], for the port [port_data]
    whose id is the id of the bridge port. The generator [_dhcp_mappings]
    is consumed by the loop that calls [add_dhcp_host], so that each
    subnet is read just before its host is added. *)
Definition create_port_body (port_data : port) (bridge : string)
    (bridge_port : mport) : M port :=
  let tenant_id := port_tenant_id port_data in
  with_session (
    new_port ← db_write (λ d, super_create_port d port_data);
    let port_data := new_port in
    db_write (λ d, _ensure_default_security_group_on_port d port_data);;
    (if _is_vif_port port_data then
       sg_ids ← db_read (λ d, _get_security_groups_on_port d port_data);
       _bind_port_to_sgs port_data sg_ids;;
       inbound ← of_option
         (dict_get (_port_chain_names (port_id new_port)) "inbound")
         (KeyError "inbound");
       chain_in ← create_chain tenant_id inbound;
       outbound ← of_option
         (dict_get (_port_chain_names (port_id new_port)) "outbound")
         (KeyError "outbound");
       chain_out ← create_chain tenant_id outbound;
       _initialize_port_chains port_data (Some chain_in) (Some chain_out)
         sg_ids;;
       update_port_chains bridge_port (c_id chain_in) (c_id chain_out);;
       for_ (port_fixed_ips port_data) (λ fixed_ip,
         subnet ← db_read (λ d, _get_subnet d (subnet_id fixed_ip));
         if Z.eqb (subnet_ip_version subnet) 6 then mret ()
         else if negb (subnet_enable_dhcp subnet) then mret ()
         else add_dhcp_host bridge (subnet_cidr subnet)
                (ip_address fixed_ip) (port_mac_address port_data));;
       net ← db_read (λ d,
         super_get_network d (port_network_id port_data));
       if network_external net then
         for_ (port_fixed_ips port_data) (λ ip,
           subnet ← db_read (λ d, _get_subnet d (subnet_id ip));
           if Z.eqb (subnet_ip_version subnet) 6 then mret ()
           else _add_route_to_provider bridge (ip_address ip))
       else mret ()
     else if _is_dhcp_port port_data then
       for_ (port_fixed_ips port_data) (λ fixed_ip,
         subnet ← db_read (λ d, _get_subnet d (subnet_id fixed_ip));
         if Z.eqb (subnet_ip_version subnet) 6 then mret ()
         else add_dhcp_route_option bridge (subnet_cidr subnet)
                (ip_address fixed_ip) METADATA_DEFAULT_IP)
     else mret ());;
    mret port_data).

Definition set_port_id (id : string) (p : port) : port :=
  Port id (port_tenant_id p) (port_network_id p) (port_mac_address p)
    (port_fixed_ips p) (port_device_owner p) (port_device_id p)
    (port_admin_state_up p) (port_security_groups p).

Definition create_port (port_data : port) : M port :=
  bridge ← get_bridge (port_network_id port_data);
  let asu := port_admin_state_up port_data in
  bridge_port ← add_bridge_port bridge asu;
  let port_data := set_port_id (mport_id bridge_port) port_data in
  try_except (create_port_body port_data bridge bridge_port)
    (λ ex,
      save_and_reraise_exception ex (
        LOG ERROR "Failed to create a port on network";;
        delete_port (mport_id bridge_port) false)).

(** ** Routers *)

Definition _set_router_gateway (id : string) (gw_router : router_ref)
    (gw_ip : string) : M unit :=
  router ← get_router id;
  gw_port ← add_router_port gw_router
    [("port_address", VStr "169.254.255.1");
     ("network_address", VStr "169.254.255.0"); ("network_length", VInt 30)];
  port ← add_router_port router
    [("port_address", VStr "169.254.255.2");
     ("network_address", VStr "169.254.255.0"); ("network_length", VInt 30)];
  link gw_port (mport_id port);;
  add_router_route gw_router
    [("type", VStr "Normal"); ("src_network_addr", VStr "0.0.0.0");
     ("src_network_length", VInt 0); ("dst_network_addr", VStr gw_ip);
     ("dst_network_length", VInt 32);
     ("next_hop_port", VStr (mport_id gw_port)); ("weight", VInt 100)];;
  add_router_route router
    [("type", VStr "Normal"); ("src_network_addr", VStr "0.0.0.0");
     ("src_network_length", VInt 0); ("dst_network_addr", VStr "0.0.0.0");
     ("dst_network_length", VInt 0);
     ("next_hop_port", VStr (mport_id port)); ("weight", VInt 100)].

Definition _set_up_gateway (router_db : router) : M unit :=
  let tenant_id := router_tenant_id router_db in
  gw_port_id ← of_option (router_gw_port_id router_db) (PortNotFound "None");
  gw_port_neutron ← db_read (λ d, _get_port d gw_port_id);
  gw_ip ← of_option (ip_address <$> head (port_fixed_ips gw_port_neutron))
            IndexError;
  provider_router ← _get_provider_router;
  _set_router_gateway (router_id router_db) provider_router gw_ip;;
  provider_router ← _get_provider_router;
  gw_port_midonet ← get_link_port provider_router (router_id router_db);
  gw_info ← of_option (router_external_gateway_info router_db)
              (AttributeError "get");
  if default true (gw_enable_snat gw_info) then
    let chain_names := _nat_chain_names (router_id router_db) in
    let props := [(OS_TENANT_ROUTER_RULE_KEY, VStr SNAT_RULE)] in
    pre ← of_option (dict_get chain_names "pre-routing")
            (KeyError "pre-routing");
    post ← of_option (dict_get chain_names "post-routing")
             (KeyError "post-routing");
    gw_port_midonet ← of_option gw_port_midonet (AttributeError "get_id");
    add_dynamic_snat tenant_id pre post gw_ip (mport_id gw_port_midonet)
      props
  else mret ().

Definition set_router_status (s : string) (r : router) : router :=
  Router (router_id r) (router_tenant_id r) (router_name r)
    (router_admin_state_up r) s (router_gw_port_id r)
    (router_external_gateway_info r).

Definition create_router (ctx : context) (r : router_request) : M router :=
  tenant_id ← db_read (λ d, _get_tenant_id_for_create d ctx (rq_tenant_id r));
  mido_router ← client_create_router
    [("tenant_id", VStr tenant_id); ("name", VStr (rq_name r));
     ("admin_state_up", VBool (rq_admin_state_up r))];
  let mido_router_id := r_id mido_router in
  let chain_names := _nat_chain_names mido_router_id in
  chains_added ← try_except
    (pre ← of_option (dict_get chain_names "pre-routing")
             (KeyError "pre-routing");
     post ← of_option (dict_get chain_names "post-routing")
              (KeyError "post-routing");
     add_router_chains mido_router pre post;;
     mret None)
    (λ _,
      r ← with_session (
        r ← db_read (λ d, _get_router d mido_router_id);
        let r := set_router_status NET_STATUS_ERROR r in
        db_write (λ d, session_add_router d r);;
        mret r);
      mret (Some r));
  match chains_added with
  | Some r => mret r
  | None =>
      try_except
        (let gw_info := rq_external_gateway_info r in
         with_session (
           let router_db :=
             Router mido_router_id tenant_id (rq_name r)
               (rq_admin_state_up r) "ACTIVE" None None in
           db_write (λ d, session_add_router d router_db);;
           match gw_info with
           | Some gw_info =>
               db_write (λ d,
                 _update_router_gw_info d (router_id router_db) gw_info);;
               router_data ← db_read (λ d,
                 _make_router_dict d (router_id router_db));
               _set_up_gateway router_data;;
               mret router_data
           | None =>
               db_read (λ d, _make_router_dict d (router_id router_db))
           end))
        (λ ex,
          save_and_reraise_exception ex
            (client_delete_router mido_router_id))
  end.

(** ** Router interfaces *)

Definition _link_bridge_to_router (router : router_ref) (bridge_port : port)
    (net_addr' : string) (net_len : Z) (gw_ip metadata_gw_ip : option string)
    : M unit :=
  router_port ← add_router_port router
    [("network_length", VInt net_len); ("network_address", VStr net_addr');
     ("port_address", opt_str gw_ip);
     ("admin_state_up", VBool (port_admin_state_up bridge_port))];
  link router_port (port_id bridge_port);;
  add_router_route router
    [("type", VStr "Normal"); ("src_network_addr", VStr "0.0.0.0");
     ("src_network_length", VInt 0); ("dst_network_addr", VStr net_addr');
     ("dst_network_length", VInt net_len);
     ("next_hop_port", VStr (mport_id router_port)); ("weight", VInt 100)];;
  if truthy metadata_gw_ip then
    let '(md_net_addr, md_net_len) := net_addr METADATA_DEFAULT_IP in
    add_router_route router
      [("type", VStr "Normal"); ("src_network_addr", VStr net_addr');
       ("src_network_length", VInt net_len);
       ("dst_network_addr", VStr md_net_addr);
       ("dst_network_length", VInt md_net_len);
       ("next_hop_port", VStr (mport_id router_port));
       ("next_hop_gateway", opt_str metadata_gw_ip)]
  else mret ().

(** The decorator [retryloop(attempts, delay)] applied to [func]. *)
Fixpoint retryloop {A} (attempts delay : nat) (func : M (option A))
    : M (option A) :=
  match attempts with
  | 0 => mret None
  | S attempts' =>
      result ← func;
      match result with
      | None => time_sleep delay;; retryloop attempts' delay func
      | Some r => mret (Some r)
      end
  end.

(** The address of the first fixed IP of the first DHCP port of the
    network of the subnet, as the store shows it now. *)
Definition dhcp_port_ip (d : Db) (s : subnet) : option string :=
  match query_dhcp_ports d (subnet_network_id s) with
  | p :: _ =>
      match port_fixed_ips p with
      | f :: _ => Some (ip_address f)
      | [] => None
      end
  | [] => None
  end.

Definition _get_dhcp_port_ip (s : subnet) : M (option string) :=
  retryloop 5 1 (λ w, (Ok (dhcp_port_ip (db w) s), w)).

Definition add_router_interface (router_id : string)
    (interface_info : interface_info) : M router_interface_info :=
  info ← with_session (db_write (λ d,
    super_add_router_interface d router_id interface_info));
  try_except
    (subnet ← db_read (λ d, _get_subnet d (info_subnet_id info));
     let cidr := subnet_cidr subnet in
     let '(net_addr', net_len) := net_addr cidr in
     router ← get_router router_id;
     metadata_gw_ip ← _get_dhcp_port_ip subnet;
     (match metadata_gw_ip with
      | None => LOG WARN "The DHCP port does not yet exist"
      | Some _ => mret ()
      end);;
     port ← db_read (λ d, super_get_port d (info_port_id info));
     _link_bridge_to_router router port net_addr' net_len
       (subnet_gateway_ip subnet) metadata_gw_ip;;
     mret info)
    (λ ex,
      LOG ERROR "Failed to create MidoNet resources to add router interface";;
      save_and_reraise_exception ex
        (with_session (db_write (λ d,
           remove_router_interface d router_id info)))).

End plugin.

Arguments world Db : clear implicits.
Arguments M Db : clear implicits.

(** ** Reading rules and chains *)

Definition kw_true (kwargs : dict value) (k : string) : bool :=
  match dict_get kwargs k with Some (VBool true) => true | _ => false end.


(** What a rule of a port chain is for, read off its action and its
    keyword arguments. *)
Inductive rule_kind :=
  | ReverseFlowAccept
  | MacSpoofDrop (mac : string)
  | IpSpoofDrop (addr : string) (len dl_type : Z)
  | SgJump (chain_name : string)
  | DropNonArp
  | OtherRule.

Definition kind_of (action : string) (kwargs : dict value) : rule_kind :=
  if String.eqb action "jump" then
    match kw_str_of kwargs "jump_chain_name" with
    | Some n => SgJump n
    | None => OtherRule
    end
  else if String.eqb action "accept" then
    if kw_true kwargs "match_return_flow" then ReverseFlowAccept
    else OtherRule
  else if String.eqb action "drop" then
    if kw_true kwargs "inv_dl_type" then
      match kw_int_of kwargs "dl_type" with
      | Some t => if Z.eqb t ETHERTYPE_ARP then DropNonArp else OtherRule
      | None => OtherRule
      end
    else if kw_true kwargs "inv_dl_src" then
      match kw_str_of kwargs "dl_src" with
      | Some m => MacSpoofDrop m
      | None => OtherRule
      end
    else if kw_true kwargs "inv_nw_src" then
      match kw_str_of kwargs "nw_src_addr", kw_int_of kwargs "nw_src_length",
            kw_int_of kwargs "dl_type" with
      | Some a, Some l, Some t => IpSpoofDrop a l t
      | _, _, _ => OtherRule
      end
    else OtherRule
  else OtherRule.

Definition rule_kind_of (r : rule) : rule_kind :=
  kind_of (rule_action r) (rule_kwargs r).

Definition is_anti_spoof (k : rule_kind) : bool :=
  match k with MacSpoofDrop _ | IpSpoofDrop _ _ _ => true | _ => false end.

Definition is_sg_jump (k : rule_kind) : bool :=
  match k with SgJump _ => true | _ => false end.

Fixpoint skip_while {A} (p : A → bool) (l : list A) : list A :=
  match l with
  | x :: l' => if p x then skip_while p l' else l
  | [] => []
  end.

(** The order "reverse-flow accept, anti-spoofing drops, jumps, drop of
    what is not ARP". *)
Definition accept_spoof_jumps_drop (ks : list rule_kind) : bool :=
  match ks with
  | ReverseFlowAccept :: ks' =>
      match skip_while is_sg_jump (skip_while is_anti_spoof ks') with
      | [DropNonArp] => true
      | _ => false
      end
  | _ => false
  end.

(** The order "anti-spoofing drops, reverse-flow accept, jumps, drop of
    what is not ARP". *)
Definition spoof_accept_jumps_drop (ks : list rule_kind) : bool :=
  match skip_while is_anti_spoof ks with
  | ReverseFlowAccept :: ks' =>
      match skip_while is_sg_jump ks' with
      | [DropNonArp] => true
      | _ => false
      end
  | _ => false
  end.

Section observations.
Context {Db : Type} `{!NeutronDb Db} `{!NetUtil}.

Definition rules_at (w : world Db) (k : string * string)
    : option (list rule) :=
  chain_rules <$> chains (mido w) !! k.

Definition kinds_at (w : world Db) (k : string * string)
    : option (list rule_kind) :=
  map rule_kind_of <$> rules_at w k.

(** No call to the controller fails. *)
Definition no_faults (w : world Db) : Prop := ∀ n, faults w n = None.

(** The last rule of the chain is the drop of what is not ARP. *)
Definition ends_with_drop (w : world Db) (k : string * string) : Prop :=
  ∃ ks, kinds_at w k = Some ks ∧ last ks = Some DropNonArp.

(** The anti-spoofing rule of a fixed IP, by the version of its subnet. *)
Definition ip_spoof_kind (d : Db) (f : fixed_ip) : rule_kind :=
  match _get_subnet d (subnet_id f) with
  | Ok s =>
      if Z.eqb (subnet_ip_version s) 6 then
        let '(a, l) := net_addr (ip_address f +:+ "/128") in
        IpSpoofDrop a l ETHERTYPE_IPV6
      else
        let '(a, l) := net_addr (ip_address f +:+ "/32") in
        IpSpoofDrop a l ETHERTYPE_IPV4
  | Raise _ => OtherRule
  end.

(** The error of the deletion of a security group that still has port
    bindings: the default group of someone who is not an administrator is
    refused as such before the bindings are looked at. *)
Definition in_use_error (ctx : context) (sg : security_group) : exn :=
  if String.eqb (sg_name sg) "default" && negb (is_admin ctx)
  then SecurityGroupCannotRemoveDefault
  else SecurityGroupInUse (sg_id sg).

(** The chain a rule of a security group is translated into. *)
Definition sg_chain_name (r : sg_rule) : string :=
  fmt (if String.eqb (sgr_direction r) "egress" then SG_EGRESS_CHAIN_NAME
       else SG_INGRESS_CHAIN_NAME) (sgr_security_group_id r).

(** The address and length a rule matches on under the keys [a], [l],
    and the match a remote prefix stands for (none when it is falsy). *)
Definition addr_match (kwargs : dict value) (a l : string)
    : option (string * Z) :=
  match kw_str_of kwargs a, kw_int_of kwargs l with
  | Some x, Some y => Some (x, y)
  | _, _ => None
  end.

Definition prefix_match (o : option string) : option (string * Z) :=
  if truthy o then net_addr <$> o else None.

(** A sequence of calls of [_add_sg_jumps_to_port_chains] on the chains
    of one port, whatever each call returns. *)
Fixpoint add_jumps_sequence (port_inbound port_outbound : option chain_ref)
    (sgs : list (option chain_ref * option chain_ref)) (w : world Db)
    : world Db :=
  match sgs with
  | [] => w
  | (sg_egress, sg_ingress) :: sgs' =>
      add_jumps_sequence port_inbound port_outbound sgs'
        (_add_sg_jumps_to_port_chains port_inbound port_outbound
           sg_egress sg_ingress w).2
  end.

(** What is known of the world while the chains [cin] and [cout] of a
    port are built: no call fails, the store is [d], the two chains hold
    rules of the kinds [X] and [Y], and the chains [E] exist. *)
Definition port_chains_are (cin cout : chain_ref) (d : Db)
    (E : string * string → Prop) (X Y : list rule_kind) (w : world Db)
    : Prop :=
  no_faults w ∧ db w = d ∧
  kinds_at w (chain_key cin) = Some X ∧
  kinds_at w (chain_key cout) = Some Y ∧
  ∀ k, E k → is_Some (chains (mido w) !! k).

(** Methods that keep a property of the world, whatever they return. *)
Definition preserves {A} (I : world Db → Prop) (m : M Db A) : Prop :=
  ∀ w, I w → I (m w).2.

End observations.

(** ** A concrete store and concrete helpers, to run the methods *)

Fixpoint split_slash (s : string) : string * option string :=
  match s with
  | EmptyString => (EmptyString, None)
  | String a s' =>
      if Ascii.eqb a (Ascii.ascii_of_nat 47) then (EmptyString, Some s')
      else let '(x, y) := split_slash s' in (String a x, y)
  end.

Fixpoint parse_decimal (s : string) (acc : Z) : Z :=
  match s with
  | EmptyString => acc
  | String a s' =>
      parse_decimal s' (10 * acc + (Z.of_nat (Ascii.nat_of_ascii a) - 48))
  end.

#[local] Instance example_net_util : NetUtil := {|
  net_addr s :=
    let '(a, l) := split_slash s in
    (a, match l with Some l => parse_decimal l 0 | None => 32 end);
  get_protocol_value p :=
    match p with
    | Some p =>
        if String.eqb p "icmp" then VInt 1
        else if String.eqb p "tcp" then VInt 6
        else if String.eqb p "udp" then VInt 17 else VNone
    | None => VNone
    end;
  get_ethertype_value e :=
    if String.eqb e "IPv6" then VInt ETHERTYPE_IPV6 else VInt ETHERTYPE_IPV4
|}%Z.

(** A store made of tables. [st_port_routers] tells the router that
    serves a port and [st_arrivals] the ports that other writers add, one
    batch for each second that passes. *)
Record store := Store {
  st_subnets : dict subnet;
  st_networks : dict network;
  st_ports : dict port;
  st_security_groups : dict security_group;
  st_sg_bindings : list sg_binding;
  st_floatingips : dict floatingip;
  st_routers : dict router;
  st_port_routers : dict string;
  st_arrivals : list (list port)
}.

Definition find_or {A} (t : dict A) (id : string) (e : exn) : result A :=
  match dict_get t id with
  | Some a => Ok a
  | None => Raise e
  end.

Definition set_st_ports (f : dict port → dict port) (d : store) : store :=
  Store (st_subnets d) (st_networks d) (f (st_ports d))
    (st_security_groups d) (st_sg_bindings d) (st_floatingips d)
    (st_routers d) (st_port_routers d) (st_arrivals d).

Definition set_st_security_groups
    (f : dict security_group → dict security_group) (d : store) : store :=
  Store (st_subnets d) (st_networks d) (st_ports d)
    (f (st_security_groups d)) (st_sg_bindings d) (st_floatingips d)
    (st_routers d) (st_port_routers d) (st_arrivals d).

Definition set_st_sg_bindings (f : list sg_binding → list sg_binding)
    (d : store) : store :=
  Store (st_subnets d) (st_networks d) (st_ports d)
    (st_security_groups d) (f (st_sg_bindings d)) (st_floatingips d)
    (st_routers d) (st_port_routers d) (st_arrivals d).

Definition set_st_floatingips (f : dict floatingip → dict floatingip)
    (d : store) : store :=
  Store (st_subnets d) (st_networks d) (st_ports d)
    (st_security_groups d) (st_sg_bindings d) (f (st_floatingips d))
    (st_routers d) (st_port_routers d) (st_arrivals d).

Definition set_st_routers (f : dict router → dict router) (d : store)
    : store :=
  Store (st_subnets d) (st_networks d) (st_ports d)
    (st_security_groups d) (st_sg_bindings d) (st_floatingips d)
    (f (st_routers d)) (st_port_routers d) (st_arrivals d).

Definition store_sleep (d : store) (n : nat) : store :=
  Store (st_subnets d) (st_networks d)
    (st_ports d ++ map (λ p, (port_id p, p)) (concat (take n (st_arrivals d))))
    (st_security_groups d) (st_sg_bindings d) (st_floatingips d)
    (st_routers d) (st_port_routers d) (drop n (st_arrivals d)).

Definition store_update_floatingip (d : store) (id : string)
    (body : floatingip_request) : result (floatingip * store) :=
  match dict_get (st_floatingips d) id with
  | Some f =>
      let router :=
        match req_port_id body with
        | Some p => dict_get (st_port_routers d) p
        | None => None
        end in
      let f' := FloatingIp (fip_id f) (fip_floating_ip_address f)
                  (req_fixed_ip_address body) router (req_port_id body) in
      Ok (f', set_st_floatingips (dict_set id f') d)
  | None => Raise (FloatingIPNotFound id)
  end.

Definition store_update_router_gw_info (d : store) (id : string)
    (gw : gw_info) : result (unit * store) :=
  match dict_get (st_routers d) id with
  | Some r =>
      let r' := Router (router_id r) (router_tenant_id r) (router_name r)
                  (router_admin_state_up r) (router_status r)
                  (Some (id +:+ "-gw")) (Some gw) in
      Ok ((), set_st_routers (dict_set id r') d)
  | None => Raise (RouterNotFound id)
  end.

Definition store_add_router_interface (d : store) (router_id : string)
    (ii : interface_info) : result (router_interface_info * store) :=
  match ii_subnet_id ii with
  | Some s =>
      match dict_get (st_subnets d) s with
      | Some sn =>
          let pid := "rif-" +:+ s in
          let p := Port pid "tenant" (subnet_network_id sn)
                     "fa:16:3e:00:00:ff" [] "network:router_interface"
                     router_id true [] in
          Ok (RouterInterfaceInfo router_id "tenant" pid s,
              set_st_ports (dict_set pid p) d)
      | None => Raise (SubnetNotFound s)
      end
  | None => Raise (DbError "no subnet")
  end.

#[local] Instance example_db : NeutronDb store := {|
  _get_subnet d id := find_or (st_subnets d) id (SubnetNotFound id);
  super_get_network d id := find_or (st_networks d) id (NetworkNotFound id);
  super_get_port d id := find_or (st_ports d) id (PortNotFound id);
  _get_port d id := find_or (st_ports d) id (PortNotFound id);
  super_create_port d p := Ok (p, set_st_ports (dict_set (port_id p) p) d);
  _ensure_default_security_group_on_port d p := Ok ((), d);
  _get_security_groups_on_port d p := Ok (Some (port_security_groups p));
  _process_port_create_security_group d p sg_ids :=
    Ok ((), set_st_sg_bindings (λ bs,
              bs ++ map (SgBinding (port_id p)) (default [] sg_ids)) d);
  super_get_security_group d id :=
    match dict_get (st_security_groups d) id with
    | Some sg => Ok (Some sg)
    | None => Raise (SecurityGroupNotFound id)
    end;
  _get_port_security_group_bindings d filters :=
    Ok (filter (λ b, binding_security_group_id b ∈ filters)
          (st_sg_bindings d));
  super_delete_security_group d id :=
    Ok ((), set_st_security_groups (dict_del id) d);
  create_security_group_rule_bulk_native d rules := Ok (rules, d);
  super_get_floatingip d id :=
    find_or (st_floatingips d) id (FloatingIPNotFound id);
  super_update_floatingip := store_update_floatingip;
  _get_tenant_id_for_create d ctx t := Ok (default "tenant" t);
  _get_router d id := find_or (st_routers d) id (RouterNotFound id);
  session_add_router d r :=
    Ok ((), set_st_routers (dict_set (router_id r) r) d);
  _update_router_gw_info := store_update_router_gw_info;
  _make_router_dict d id := find_or (st_routers d) id (RouterNotFound id);
  super_add_router_interface := store_add_router_interface;
  remove_router_interface d router_id info :=
    Ok ((), set_st_ports (dict_del (info_port_id info)) d);
  query_dhcp_ports d net :=
    filter (λ p, port_network_id p = net ∧
                 port_device_owner p = "network:dhcp")
      (map snd (st_ports d));
  db_sleep := store_sleep
|}.

Definition empty_store : store := Store [] [] [] [] [] [] [] [] [].

Definition example_ids (n : nat) : string := "id-" +:+ pretty n.

(** A world with the given chains and store, where no call fails. *)
Definition example_world (cs : list (string * string * chain)) (d : store)
    : world store :=
  World (Midonet (list_to_map cs) [] [] ∅ ∅) [] (λ _, None) example_ids d
    "provider" None 0 [].

(** A port with one fixed IP and one security group, its two chains, and
    a world where these chains are empty and the chains of the group
    exist. *)
Definition example_port : port :=
  Port "p1" "tenant" "net1" "fa:16:3e:00:00:01" [FixedIp "sub1" "10.0.0.3"]
    "compute:nova" "vm1" true ["sg-1"].

Definition example_in_chain : chain_ref :=
  ChainRef "tenant" "OS_PORT_p1_INBOUND" "c-in".

Definition example_out_chain : chain_ref :=
  ChainRef "tenant" "OS_PORT_p1_OUTBOUND" "c-out".

Definition example_store : store :=
  Store [("sub1", Subnet "net1" "10.0.0.0/24" (Some "10.0.0.1") 4 true)]
    [("net1", Network "net1" false ["sub1"])] [] [] [] [] [] [] [].

Definition example_port_world : world store :=
  example_world
    [("tenant", "OS_PORT_p1_INBOUND", Chain "c-in" []);
     ("tenant", "OS_PORT_p1_OUTBOUND", Chain "c-out" []);
     ("tenant", "OS_SG_sg-1_EGRESS", Chain "c-egress" []);
     ("tenant", "OS_SG_sg-1_INGRESS", Chain "c-ingress" [])]
    example_store.

(** A store with the default group and another group, each bound to a
    port, and a floating IP bound to the port [p1] through router [r1]. *)
Definition example_sg_store : store :=
  Store [] [] []
    [("sg-1", SecurityGroup "sg-1" "default" "tenant" []);
     ("sg-2", SecurityGroup "sg-2" "web" "tenant" [])]
    [SgBinding "p1" "sg-1"; SgBinding "p2" "sg-2"]
    [("fip-1", FloatingIp "fip-1" "203.0.113.7" (Some "10.0.0.3")
                 (Some "r1") (Some "p1"))]
    [] [("p1", "r1"); ("p2", "r2")] [].

Definition example_sg_world : world store :=
  example_world
    [("tenant", "OS_SG_sg-1_INGRESS", Chain "c1" []);
     ("tenant", "OS_SG_sg-1_EGRESS", Chain "c2" []);
     ("tenant", "OS_SG_sg-2_INGRESS", Chain "c3" []);
     ("tenant", "OS_SG_sg-2_EGRESS", Chain "c4" [])]
    example_sg_store.

(** * Properties *)

(** ** Facts on strings *)

Section strings.
Implicit Types s t u : string.

Lemma append_cons a s t : String a s +:+ t = String a (s +:+ t).
Proof. reflexivity. Qed.

Lemma append_nil_l t : EmptyString +:+ t = t.
Proof. reflexivity. Qed.

Lemma append_nil_r s : s +:+ EmptyString = s.
Proof. induction s as [|a s IH]; [done |]. by rewrite append_cons, IH. Qed.

Lemma list_ascii_append s t :
  String.list_ascii_of_string (s +:+ t)
  = String.list_ascii_of_string s ++ String.list_ascii_of_string t.
Proof.
  induction s as [|a s IH]; [done |].
  rewrite append_cons. simpl. by rewrite IH.
Qed.

Lemma list_ascii_inj s t :
  String.list_ascii_of_string s = String.list_ascii_of_string t → s = t.
Proof.
  intros H. rewrite <- (String.string_of_list_ascii_of_string s),
    <- (String.string_of_list_ascii_of_string t). by rewrite H.
Qed.

(** Reversed spelling of [s ++ suffix]: the suffix comes first. *)
Lemma rev_ascii_append s t :
  rev (String.list_ascii_of_string (s +:+ t))
  = rev (String.list_ascii_of_string t) ++ rev (String.list_ascii_of_string s).
Proof. by rewrite list_ascii_append, rev_app_distr. Qed.

Lemma append_inj_l u s t : s +:+ u = t +:+ u → s = t.
Proof.
  intros H. apply list_ascii_inj.
  apply (f_equal (λ x, rev (String.list_ascii_of_string x))) in H.
  rewrite !rev_ascii_append in H.
  apply app_inv_head in H. by apply rev_inj in H.
Qed.
End strings.

Lemma fmt_inj (t : template) (i j : string) : fmt t i = fmt t j → i = j.
Proof.
  destruct t as [p s]. unfold fmt. simpl. intros H.
  apply (inj (String.app p)) in H. by apply append_inj_l in H.
Qed.

(** Two names of different templates differ: either the prefixes differ
    at some letter, or the reversed spellings of the endings do. *)
Ltac name_clash H :=
  unfold fmt in H; simpl fst in H; simpl snd in H;
  first
    [ rewrite ?append_cons, ?append_nil_l in H; congruence
    | apply (f_equal (λ x, rev (String.list_ascii_of_string x))) in H;
      rewrite !rev_ascii_append in H; simpl in H; congruence ].

(** C3: the derived names are functions of (role, id), and two equal names
    come from the same role and the same id: no collision inside a role
    and none across roles. *)
Theorem nameFor_injective :
  (∀ r i, ∃ n, nameFor r i = Some n) ∧
  (∀ r1 r2 i j n,
      nameFor r1 i = Some n → nameFor r2 j = Some n → r1 = r2 ∧ i = j).
Proof.
  split.
  - intros r i. destruct r; simpl; eauto.
  - intros r1 r2 i j n H1 H2.
    destruct r1, r2; simpl in H1, H2;
      injection H1 as H1; injection H2 as H2; subst n;
      unfold _sg_ip_addr_group_name in *;
      first
        [ split; [reflexivity | by apply fmt_inj in H2]
        | exfalso; name_clash H2 ].
Qed.

Lemma nameFor_injective_witness :
  nameFor PortInbound "p1" = Some "OS_PORT_p1_INBOUND" ∧
  (PortInbound = PortInbound ∧ "p1" = "p1").
Proof.
  split; [reflexivity |].
  apply (proj2 nameFor_injective PortInbound PortInbound "p1" "p1"
           "OS_PORT_p1_INBOUND"); reflexivity.
Defined.

(** ** Running a method *)

Section run.
Context {Db : Type} `{!NeutronDb Db} `{!NetUtil}.
Implicit Types w : world Db.

Lemma run_bind {A B} (m : M Db A) (f : A → M Db B) w a w' :
  m w = (Ok a, w') → (m ≫= f) w = f a w'.
Proof. intros Hm. unfold mbind, M_bind. by rewrite Hm. Qed.

Lemma run_bind_raise {A B} (m : M Db A) (f : A → M Db B) w e w' :
  m w = (Raise e, w') → (m ≫= f) w = (Raise e, w').
Proof. intros Hm. unfold mbind, M_bind. by rewrite Hm. Qed.

Lemma run_remote {A} c (eff : string → midonet → result A * midonet) w :
  no_faults w →
  remote c eff w =
    (let '(r, m) := eff (ids w (length (calls w))) (mido w) in
     (r, set_mido m (add_call c w))).
Proof. intros Hf. unfold remote. by rewrite Hf. Qed.

Lemma run_db_read {A} (f : Db → result A) w a :
  f (db w) = Ok a → db_read f w = (Ok a, w).
Proof. intros Hf. unfold db_read. by rewrite Hf. Qed.

Lemma run_db_write {A} (f : Db → result (A * Db)) w a d :
  f (db w) = Ok (a, d) → db_write f w = (Ok a, set_db d w).
Proof. intros Hf. unfold db_write. by rewrite Hf. Qed.

Lemma set_db_same w : set_db (db w) w = w.
Proof. by destruct w. Qed.

Lemma no_faults_set_mido m w : no_faults w → no_faults (set_mido m w).
Proof. done. Qed.

Lemma no_faults_add_call c w : no_faults w → no_faults (add_call c w).
Proof. done. Qed.

End run.

(** ** Translation of the rules of a security group *)

Section sg_rules.
Context {Db : Type} `{!NeutronDb Db} `{!NetUtil}.
Implicit Types w : world Db.

Lemma add_chain_rule_run (c : chain_ref) action kwargs w ch :
  no_faults w →
  chains (mido w) !! chain_key c = Some ch →
  add_chain_rule c action kwargs w =
    (let r := Rule (ids w (length (calls w))) action kwargs in
    (Ok r,
     set_mido (set_chains (insert (chain_key c)
        (Chain (chain_id ch) (insert_at (position_of kwargs) r (chain_rules ch)))) (mido w))
       (add_call (AddChainRule (c_tenant c) (c_name c) action kwargs) w))).
Proof.
  intros Hf Hc. unfold add_chain_rule. rewrite run_remote by done. by rewrite Hc.
Qed.

(** C5: with the chain of the direction in place and no failing call, the
    translation of a rule of a security group adds exactly one rule to
    that chain, an accept rule tagged with the id of the logical rule; for
    egress the remote group and prefix are the destination match and
    forward-flow matching is set, for ingress they are the source match
    and forward-flow matching is not set. *)
Theorem create_accept_chain_rule_spec w (sgr : sg_rule) (chain : option chain_ref) ch :
  sgr_direction sgr = "egress" ∨ sgr_direction sgr = "ingress" →
  no_faults w →
  (∀ c, chain = Some c → chain_key c = (sgr_tenant_id sgr, sg_chain_name sgr)) →
  chains (mido w) !! (sgr_tenant_id sgr, sg_chain_name sgr) = Some ch →
  ∃ r w',
    _create_accept_chain_rule sgr chain w = (Ok r, w') ∧
    chains (mido w') =
      <[(sgr_tenant_id sgr, sg_chain_name sgr) :=
          Chain (chain_id ch) (r :: chain_rules ch)]> (chains (mido w)) ∧
    rule_action r = "accept" ∧
    dict_get (rule_kwargs r) "properties"
      = Some (VDict [(OS_SG_RULE_KEY, VStr (sgr_id sgr))]) ∧
    (sgr_direction sgr = "egress" →
       dict_get (rule_kwargs r) "ip_addr_group_dst" = Some (opt_str (sgr_remote_group_id sgr)) ∧
       dict_get (rule_kwargs r) "ip_addr_group_src" = Some VNone ∧
       addr_match (rule_kwargs r) "nw_dst_addr" "nw_dst_length" = prefix_match (sgr_remote_ip_prefix sgr) ∧
       addr_match (rule_kwargs r) "nw_src_addr" "nw_src_length" = None ∧
       dict_get (rule_kwargs r) "match_forward_flow" = Some (VBool true)) ∧
    (sgr_direction sgr = "ingress" →
       dict_get (rule_kwargs r) "ip_addr_group_src" = Some (opt_str (sgr_remote_group_id sgr)) ∧
       dict_get (rule_kwargs r) "ip_addr_group_dst" = Some VNone ∧
       addr_match (rule_kwargs r) "nw_src_addr" "nw_src_length" = prefix_match (sgr_remote_ip_prefix sgr) ∧
       addr_match (rule_kwargs r) "nw_dst_addr" "nw_dst_length" = None ∧
       dict_get (rule_kwargs r) "match_forward_flow" = Some (VBool false)).
Proof.
  intros Hdir Hf Hchain Hch.
  unfold _create_accept_chain_rule, sg_chain_name in *.
  set (tenant := sgr_tenant_id sgr) in *.
  assert (∃ name, dict_get (_sg_chain_names (sgr_security_group_id sgr)) (sgr_direction sgr) = Some name ∧
      name = fmt (if String.eqb (sgr_direction sgr) "egress" then SG_EGRESS_CHAIN_NAME else SG_INGRESS_CHAIN_NAME) (sgr_security_group_id sgr)) as (name & Hname & Heq).
  { destruct Hdir as [-> | ->]; eexists; split; reflexivity. }
  rewrite Hname. rewrite <- Heq in *. clear Heq Hname.
  unfold of_option at 1. 
  erewrite run_bind by reflexivity.
  (* chain lookup *)
  assert (∃ c w1, (match chain with None => get_chain_by_name tenant name | Some c => mret (Some c) end) w = (Ok (Some c), w1)
     ∧ chain_key c = (tenant, name) ∧ no_faults w1 ∧ mido w1 = mido w) as (c & w1 & Hrun & Hkey & Hf1 & Hm1).
  { destruct chain as [c|].
    - exists c, w. split; [done|]. split; [by apply Hchain | done].
    - unfold get_chain_by_name. rewrite run_remote by done. rewrite Hch. simpl.
      eexists _, _. split; [reflexivity|]. done. }
  erewrite run_bind by exact Hrun.
  clear Hrun Hchain.
  assert (Hc1 : chains (mido w1) !! chain_key c = Some ch) by (by rewrite Hm1, Hkey).
  unfold prefix_match, truthy, addr_match, kw_str_of, kw_int_of.
  destruct (sgr_remote_ip_prefix sgr) as [p|]; simpl opt_str;
    [destruct (String.eqb p EmptyString) eqn:Hp; [|destruct (net_addr p) as [na nl] eqn:Hna]|];
    destruct (value_is_one (Some (get_protocol_value (sgr_protocol sgr)))) eqn:Hone;
    simpl in Hone;
    destruct Hdir as [Hd|Hd]; rewrite Hd; simpl;
    unfold _add_chain_rule, midonet_kwargs, kw_pop, set_net_addr; simpl;
    rewrite ?Hp, ?Hna, ?Hone; simpl; rewrite ?Hone;
    unfold of_result, of_option; (erewrite run_bind by reflexivity);
    (erewrite run_bind by reflexivity);
    (erewrite add_chain_rule_run by done); simpl;
    (eexists _, _; split; [reflexivity|]); simpl;
    rewrite Hm1, Hkey.
  all: repeat split; try done; try (intros; discriminate).
Qed.
End sg_rules.

Definition example_sg_rule : sg_rule :=
  SgRule "rule-1" "tenant" "sg-1" "egress" (Some "sg-2") (Some "10.0.0.0/24")
    (Some 22%Z) (Some 22%Z) (Some "tcp") "IPv4".

Lemma create_accept_chain_rule_spec_witness :
  ∃ r w',
    _create_accept_chain_rule example_sg_rule None
      (example_world [("tenant", "OS_SG_sg-1_EGRESS", Chain "c-1" [])]
         empty_store) = (Ok r, w') ∧
    dict_get (rule_kwargs r) "properties"
      = Some (VDict [(OS_SG_RULE_KEY, VStr "rule-1")]).
Proof.
  destruct (create_accept_chain_rule_spec
    (example_world [("tenant", "OS_SG_sg-1_EGRESS", Chain "c-1" [])]
       empty_store)
    example_sg_rule None (Chain "c-1" []))
    as (r & w' & Hrun & _ & _ & Hprops & _).
  - left. reflexivity.
  - intros n. reflexivity.
  - intros c Hc. discriminate Hc.
  - vm_compute. reflexivity.
  - exists r, w'. split; [exact Hrun | exact Hprops].
Defined.

(** ** The last rule of the chains of a port *)

Section port_chains.
Context {Db : Type} `{!NeutronDb Db} `{!NetUtil}.
Implicit Types w : world Db.
Implicit Types k : string * string.
Implicit Types I : world Db → Prop.

Lemma map_insert_at {A B} (f : A → B) p x (l : list A) :
  map f (insert_at p x l) = insert_at p (f x) (map f l).
Proof.
  unfold insert_at. rewrite map_app. simpl.
  by rewrite <- !fmap_take, <- !fmap_drop.
Qed.

Lemma last_insert_at {A} p (x : A) l :
  p - 1 < length l → last (insert_at p x l) = last l.
Proof.
  intros Hp. unfold insert_at.
  rewrite last_app_cons. 
  destruct (drop (p - 1) l) as [|y l'] eqn:Hd.
  - apply (f_equal length) in Hd. rewrite length_drop in Hd. simpl in Hd. lia.
  - pose proof (take_drop (p - 1) l) as Htd. rewrite Hd in Htd.
    rewrite <- Htd, last_app_cons. reflexivity.
Qed.

Lemma bind_ok_inv {A B} (m : M Db A) (f : A → M Db B) w b w' :
  (m ≫= f) w = (Ok b, w') → ∃ a w1, m w = (Ok a, w1) ∧ f a w1 = (Ok b, w').
Proof.
  unfold mbind, M_bind. destruct (m w) as [[a|e] w1]; [eauto | discriminate].
Qed.

(** What [_add_chain_rule] does to the controller, whatever it returns. *)
Lemma add_chain_rule_outcome chain action kwargs w :
  let res := _add_chain_rule chain action kwargs w in
  faults res.2 = faults w ∧ db res.2 = db w ∧
  ((∃ e, res.1 = Raise e ∧ mido res.2 = mido w) ∨
   (∃ c ch kw' r,
      chain = Some c ∧ midonet_kwargs kwargs = Ok kw' ∧
      chains (mido w) !! chain_key c = Some ch ∧
      res.1 = Ok r ∧ rule_action r = action ∧ rule_kwargs r = kw' ∧
      mido res.2 =
        set_chains (insert (chain_key c)
          (Chain (chain_id ch)
             (insert_at (position_of kw') r (chain_rules ch)))) (mido w))).
Proof.
  unfold _add_chain_rule, of_result, of_option, add_chain_rule, remote,
    mbind, M_bind, mret, M_ret, raise.
  destruct (midonet_kwargs kwargs) as [kw'|e]; simpl; [|by eauto 10].
  destruct chain as [c|]; simpl; [|by eauto 10].
  destruct (faults w (length (calls w))); simpl; [by eauto 10|].
  destruct (chains (mido w) !! chain_key c) as [ch|] eqn:Hc; simpl;
    [|by eauto 10].
  do 2 (split; [done|]). right. by eauto 12.
Qed.

Lemma kinds_at_insert w w' k k' id l :
  mido w' = set_chains (insert k (Chain id l)) (mido w) →
  kinds_at w' k' =
    if decide (k = k') then Some (map rule_kind_of l) else kinds_at w k'.
Proof.
  intros Hm. unfold kinds_at, rules_at. rewrite Hm. simpl.
  rewrite lookup_insert. by destruct (decide (k = k')).
Qed.

Lemma kinds_at_mido w w' k : mido w' = mido w → kinds_at w' k = kinds_at w k.
Proof. intros Hm. unfold kinds_at, rules_at. by rewrite Hm. Qed.

Lemma ends_with_drop_mido w w' k :
  mido w' = mido w → ends_with_drop w k → ends_with_drop w' k.
Proof. intros Hm (ks & H1 & H2). exists ks. by rewrite (kinds_at_mido w w'). Qed.

(** A rule created strictly before the end of a chain leaves its last rule in place. *)
Lemma add_chain_rule_keeps_drop chain action kwargs w k :
  (∀ c ch kw', chain = Some c → midonet_kwargs kwargs = Ok kw' →
     chains (mido w) !! chain_key c = Some ch → chain_rules ch ≠ [] →
     position_of kw' - 1 < length (chain_rules ch)) →
  ends_with_drop w k →
  ends_with_drop (_add_chain_rule chain action kwargs w).2 k.
Proof.
  intros Hpos Hk.
  destruct (add_chain_rule_outcome chain action kwargs w)
    as (_ & _ & [(e & _ & Hm) | (c & ch & kw' & r & Hc & Hkw & Hch & _ & _ & _ & Hm)]).
  - by apply (ends_with_drop_mido w).
  - destruct Hk as (ks & Hks & Hlast).
    unfold ends_with_drop. rewrite (kinds_at_insert _ _ _ k _ _ Hm).
    case_decide as Hd; [|by eauto].
    subst k. unfold kinds_at, rules_at in Hks. rewrite Hch in Hks.
    simpl in Hks. injection Hks as <-.
    eexists; split; [done|].
    rewrite map_insert_at, last_insert_at; [done|].
    rewrite length_map. apply (Hpos c ch kw'); try done.
    intros Hnil. rewrite Hnil in Hlast. discriminate.
Qed.

Lemma preserves_ret {A} I (a : A) : preserves I (mret a).
Proof. by intros w. Qed.

Lemma preserves_raise {A} I e : preserves I (raise (A:=A) e).
Proof. by intros w. Qed.

Lemma preserves_bind {A B} I (m : M Db A) (f : A → M Db B) :
  preserves I m → (∀ a, preserves I (f a)) → preserves I (m ≫= f).
Proof.
  intros Hm Hf w Hw. specialize (Hm w Hw). unfold mbind, M_bind.
  destruct (m w) as [[a|e] w1]; simpl in *; [by apply Hf | done].
Qed.

Lemma preserves_for {X} I (l : list X) (f : X → M Db unit) :
  (∀ x, preserves I (f x)) → preserves I (for_ l f).
Proof.
  intros Hf. induction l as [|x l IH]; simpl.
  - apply preserves_ret.
  - apply preserves_bind; [apply Hf | by intros _].
Qed.

Lemma preserves_of_option {A} I (o : option A) e : preserves I (of_option o e).
Proof. destruct o; [apply preserves_ret | apply preserves_raise]. Qed.

Lemma preserves_of_result {A} I (r : result A) : preserves I (of_result r).
Proof. by intros w. Qed.

Lemma preserves_db_read {A} I (f : Db → result A) : preserves I (db_read f).
Proof. by intros w. Qed.

(** A call that leaves the controller as it is. *)
Lemma remote_read_mido {A} c (g : string → midonet → result A) w :
  mido (remote c (λ i m, (g i m, m)) w).2 = mido w.
Proof. unfold remote. by destruct (faults w _). Qed.

Lemma get_chain_by_name_keeps_drop tenant name k :
  preserves (λ w, ends_with_drop w k) (get_chain_by_name tenant name).
Proof.
  intros w Hw. eapply ends_with_drop_mido; [|done].
  unfold get_chain_by_name. apply remote_read_mido.
Qed.

Lemma _get_sg_chains_keeps_drop tenant sg k :
  preserves (λ w, ends_with_drop w k) (_get_sg_chains tenant sg).
Proof.
  unfold _get_sg_chains.
  repeat first
    [ apply preserves_bind; [|intros ?]
    | apply preserves_of_option
    | apply get_chain_by_name_keeps_drop
    | apply preserves_ret ].
Qed.

Lemma add_chain_rule_first_keeps_drop chain action kwargs k :
  (∀ kw', midonet_kwargs kwargs = Ok kw' → position_of kw' = 1) →
  preserves (λ w, ends_with_drop w k) (_add_chain_rule chain action kwargs).
Proof.
  intros Hpos w Hw. apply add_chain_rule_keeps_drop; [|done].
  intros c ch kw' _ Hkw _ Hne. rewrite (Hpos kw' Hkw).
  destruct (chain_rules ch); [done | simpl; lia].
Qed.

Lemma snd_then_ret {A} (m : M Db A) w : ((m ;; mret ()) w).2 = (m w).2.
Proof. unfold mbind, M_bind. by destruct (m w) as [[a|e] w1]. Qed.

Lemma add_sg_jump_keeps_drop port_chain sg_chain k :
  preserves (λ w, ends_with_drop w k) (add_sg_jump port_chain sg_chain).
Proof.
  intros w Hw. unfold add_sg_jump.
  destruct sg_chain as [sg|]; [|done].
  destruct port_chain as [pc|]; [|done].
  unfold of_option. rewrite !(run_bind _ _ w _ w) by done.
  unfold get_rules at 1, remote, mbind at 1, M_bind at 1.
  destruct (faults w (length (calls w))) as [e|] eqn:Hf; simpl.
  { by apply (ends_with_drop_mido w). }
  destruct (chains (mido w) !! chain_key pc) as [ch|] eqn:Hch; simpl.
  2:{ by apply (ends_with_drop_mido w). }
  rewrite snd_then_ret.
  apply add_chain_rule_keeps_drop.
  - intros c ch' kw' [= <-] Hkw Hch' Hne. simpl in Hch'.
    rewrite Hch in Hch'. injection Hch' as <-.
    unfold midonet_kwargs in Hkw. simpl in Hkw. injection Hkw as <-.
    unfold position_of. simpl. rewrite Nat2Z.id.
    destruct (chain_rules ch); [done | simpl; lia].
  - by apply (ends_with_drop_mido w).
Qed.

Lemma _add_sg_jumps_to_port_chains_keeps_drop pin pout e i k :
  preserves (λ w, ends_with_drop w k)
    (_add_sg_jumps_to_port_chains pin pout e i).
Proof.
  unfold _add_sg_jumps_to_port_chains. apply preserves_for.
  intros [pc sg]. apply add_sg_jump_keeps_drop.
Qed.

Lemma add_jumps_sequence_keeps_drop pin pout sgs w k :
  ends_with_drop w k → ends_with_drop (add_jumps_sequence pin pout sgs w) k.
Proof.
  revert w. induction sgs as [|[e i] sgs IH]; intros w Hw; simpl; [done|].
  apply IH. by apply _add_sg_jumps_to_port_chains_keeps_drop.
Qed.

(** The keyword arguments of the rules of [_initialize_port_chains] all
    carry position 1 after conversion. *)
Ltac position_one :=
  let kw' := fresh "kw" in let Hkw := fresh "Hkw" in
  intros kw' Hkw; unfold midonet_kwargs, kw_pop, set_net_addr in Hkw;
  simpl in Hkw;
  repeat match type of Hkw with
         | context [String.eqb ?a ?b] => destruct (String.eqb a b)
         | context [net_addr ?s] => destruct (net_addr s)
         end;
  simpl in Hkw;
  injection Hkw as <-; reflexivity.

(** After the first rule of a chain, the drop of what is not ARP, the
    chain ends with it. *)
Lemma add_drop_non_arp_ends_with_drop c w r w' :
  (∃ ch, chains (mido w) !! chain_key c = Some ch ∧
     (chain_rules ch = [] ∨ ends_with_drop w (chain_key c))) →
  _add_chain_rule (Some c) "drop"
    [("dl_type", VInt ETHERTYPE_ARP); ("inv_dl_type", VBool true);
     ("position", VInt 1)] w = (Ok r, w') →
  ends_with_drop w' (chain_key c).
Proof.
  intros (ch & Hch & Hrules) Hrun.
  pose proof (add_chain_rule_outcome (Some c) "drop"
    [("dl_type", VInt ETHERTYPE_ARP); ("inv_dl_type", VBool true);
     ("position", VInt 1)] w) as Hout.
  rewrite Hrun in Hout. simpl in Hout.
  destruct Hout as (_ & _ & [(e & He & _) | (c' & ch' & kw' & r' & Hc & Hkw & Hch' & Hr & Ha & Hk & Hm)]);
    [discriminate|].
  injection Hc as <-. rewrite Hch in Hch'. injection Hch' as <-.
  injection Hr as <-.
  unfold midonet_kwargs in Hkw. simpl in Hkw. injection Hkw as <-.
  unfold ends_with_drop. rewrite (kinds_at_insert _ _ _ (chain_key c) _ _ Hm).
  rewrite decide_True by done. eexists; split; [done|].
  rewrite map_insert_at. unfold position_of. simpl.
  unfold insert_at. simpl. rewrite drop_0.
  destruct Hrules as [-> | (ks & Hks & Hlast)].
  - simpl. unfold rule_kind_of. by rewrite Ha, Hk.
  - unfold kinds_at, rules_at in Hks. rewrite Hch in Hks. simpl in Hks.
    injection Hks as <-. destruct (map rule_kind_of (chain_rules ch)); done.
Qed.

Ltac keeps_drop :=
  repeat first
    [ apply preserves_ret
    | apply preserves_of_option
    | apply preserves_of_result
    | apply preserves_db_read
    | apply get_chain_by_name_keeps_drop
    | apply _get_sg_chains_keeps_drop
    | apply _add_sg_jumps_to_port_chains_keeps_drop
    | apply add_chain_rule_first_keeps_drop; position_one
    | apply preserves_for; intros ?
    | apply preserves_bind; [|intros ?]
    | match goal with
      | |- preserves _ (if ?b then _ else _) => destruct b
      | |- preserves _ (match ?o with Some _ => _ | None => _ end) =>
          destruct o
      | |- preserves _ (match ?l with [] => _ | _ :: _ => _ end) =>
          destruct l
      | |- preserves _ (let '(_, _) := ?p in _) => destruct p
      end ].

(** C4: when the chains of a port were empty and their initialization
    returns, the drop of what is not ARP is the last rule of the inbound
    and of the outbound chain, and it is still the last rule after any
    sequence of additions of jumps to chains of security groups, each jump
    being created just before it. *)
Theorem terminal_drop_stays_last w (p : port) cin cout sg_ids w1 sgs :
  rules_at w (chain_key cin) = Some [] →
  rules_at w (chain_key cout) = Some [] →
  _initialize_port_chains p (Some cin) (Some cout) sg_ids w = (Ok (), w1) →
  (ends_with_drop w1 (chain_key cin) ∧ ends_with_drop w1 (chain_key cout)) ∧
  (ends_with_drop (add_jumps_sequence (Some cin) (Some cout) sgs w1)
     (chain_key cin) ∧
   ends_with_drop (add_jumps_sequence (Some cin) (Some cout) sgs w1)
     (chain_key cout)).
Proof.
  intros Hin Hout Hrun.
  enough (ends_with_drop w1 (chain_key cin) ∧
          ends_with_drop w1 (chain_key cout)) as [H1 H2].
  { split; [done|]. split; by apply add_jumps_sequence_keeps_drop. }
  unfold _initialize_port_chains in Hrun.
  apply bind_ok_inv in Hrun as ([] & wb & Hloop & Hrest).
  simpl in Hloop.
  apply bind_ok_inv in Hloop as ([] & wa & Hfirst & Hloop).
  apply bind_ok_inv in Hfirst as (r1 & wa' & Hfirst & E1).
  apply bind_ok_inv in Hloop as ([] & wb' & Hsecond & E2).
  apply bind_ok_inv in Hsecond as (r2 & wb'' & Hsecond & E3).
  unfold mret, M_ret in E1, E2, E3. simplify_eq.
  unfold rules_at in Hin, Hout.
  destruct (chains (mido w) !! chain_key cin) as [chi|] eqn:Hchi; [|done].
  destruct (chains (mido w) !! chain_key cout) as [cho|] eqn:Hcho; [|done].
  simpl in Hin, Hout. injection Hin as Hin. injection Hout as Hout.
  assert (Ha : ends_with_drop wa (chain_key cin)).
  { eapply add_drop_non_arp_ends_with_drop; [|exact Hfirst]. eauto. }
  assert (Hb : ends_with_drop wb (chain_key cout)).
  { eapply add_drop_non_arp_ends_with_drop; [|exact Hsecond].
    pose proof (add_chain_rule_outcome (Some cin) "drop"
      [("dl_type", VInt ETHERTYPE_ARP); ("inv_dl_type", VBool true);
       ("position", VInt 1)] w) as Ho.
    rewrite Hfirst in Ho. simpl in Ho.
    destruct Ho as (_ & _ & [(e & He & _) |
      (c' & ch' & kw' & r' & [= <-] & _ & _ & _ & _ & _ & Hm)]);
      [discriminate|].
    rewrite Hm. unfold set_chains. cbn [chains].
    rewrite lookup_insert. case_decide as Hd.
    - eexists; split; [done|]. right. by rewrite <- Hd.
    - rewrite Hcho. eauto. }
  assert (Hb' : ends_with_drop wb (chain_key cin)).
  { apply (f_equal snd) in Hsecond. simpl in Hsecond. rewrite <- Hsecond.
    apply add_chain_rule_first_keeps_drop; [position_one | done]. }
  apply (f_equal snd) in Hrest. simpl in Hrest. rewrite <- Hrest.
  match goal with
  | |- _ (?m wb).2 _ ∧ _ =>
      assert (Hp : ∀ k, preserves (λ w, ends_with_drop w k) m)
  end.
  { intros k. keeps_drop. }
  split; by apply Hp.
Qed.
End port_chains.

(** ** The order of the rules of the chains of a port *)

Section port_chain_order.
Context {Db : Type} `{!NeutronDb Db} `{!NetUtil}.
Implicit Types w : world Db.
Implicit Types k : string * string.

Section exact.
Variables (cin cout : chain_ref) (d : Db) (E : string * string → Prop).
Hypothesis Hne : chain_key cin ≠ chain_key cout.
Local Notation "'obs'" := (port_chains_are cin cout d E).

Lemma add_chain_rule_ok c a kwargs kw' w ch :
  no_faults w → midonet_kwargs kwargs = Ok kw' →
  chains (mido w) !! chain_key c = Some ch →
  ∃ r w',
    _add_chain_rule (Some c) a kwargs w = (Ok r, w') ∧
    no_faults w' ∧ db w' = db w ∧ rule_kind_of r = kind_of a kw' ∧
    mido w' = set_chains (insert (chain_key c)
      (Chain (chain_id ch)
         (insert_at (position_of kw') r (chain_rules ch)))) (mido w).
Proof.
  intros Hf Hkw Hch. unfold _add_chain_rule, of_result, of_option.
  rewrite Hkw. erewrite run_bind by reflexivity.
  erewrite run_bind by reflexivity.
  unfold add_chain_rule. rewrite run_remote by done. rewrite Hch.
  eexists _, _. split; [reflexivity|]. done.
Qed.

Lemma chains_insert_is_Some w w' k k' ch :
  mido w' = set_chains (insert k ch) (mido w) →
  is_Some (chains (mido w) !! k') → is_Some (chains (mido w') !! k').
Proof.
  intros -> Hs. unfold set_chains. cbn [chains]. rewrite lookup_insert.
  case_decide; [by eexists | done].
Qed.

Lemma add_in_rule a kwargs kw' X Y w :
  obs X Y w → midonet_kwargs kwargs = Ok kw' →
  ∃ r w',
    _add_chain_rule (Some cin) a kwargs w = (Ok r, w') ∧
    obs (insert_at (position_of kw') (kind_of a kw') X) Y w'.
Proof.
  intros (Hf & Hd & HX & HY & HE) Hkw.
  unfold kinds_at, rules_at in HX.
  destruct (chains (mido w) !! chain_key cin) as [ch|] eqn:Hch; [|done].
  simpl in HX. injection HX as HX.
  destruct (add_chain_rule_ok cin a kwargs kw' w ch Hf Hkw Hch)
    as (r & w' & Hrun & Hf' & Hd' & Hk & Hm).
  exists r, w'. split; [done|]. split; [done|]. split; [congruence|].
  split; [|split].
  - rewrite (kinds_at_insert _ _ _ (chain_key cin) _ _ Hm), decide_True by done.
    by rewrite map_insert_at, Hk, HX.
  - rewrite (kinds_at_insert _ _ _ (chain_key cout) _ _ Hm), decide_False by done.
    done.
  - intros k Hk'. eapply chains_insert_is_Some; eauto.
Qed.

Lemma add_out_rule a kwargs kw' X Y w :
  obs X Y w → midonet_kwargs kwargs = Ok kw' →
  ∃ r w',
    _add_chain_rule (Some cout) a kwargs w = (Ok r, w') ∧
    obs X (insert_at (position_of kw') (kind_of a kw') Y) w'.
Proof.
  intros (Hf & Hd & HX & HY & HE) Hkw.
  unfold kinds_at, rules_at in HY.
  destruct (chains (mido w) !! chain_key cout) as [ch|] eqn:Hch; [|done].
  simpl in HY. injection HY as HY.
  destruct (add_chain_rule_ok cout a kwargs kw' w ch Hf Hkw Hch)
    as (r & w' & Hrun & Hf' & Hd' & Hk & Hm).
  exists r, w'. split; [done|]. split; [done|]. split; [congruence|].
  split; [|split].
  - rewrite (kinds_at_insert _ _ _ (chain_key cin) _ _ Hm), decide_False by done.
    done.
  - rewrite (kinds_at_insert _ _ _ (chain_key cout) _ _ Hm), decide_True by done.
    by rewrite map_insert_at, Hk, HY.
  - intros k Hk'. eapply chains_insert_is_Some; eauto.
Qed.

Lemma obs_same_mido X Y w w' :
  obs X Y w → mido w' = mido w → faults w' = faults w → db w' = db w →
  obs X Y w'.
Proof.
  intros (Hf & Hd & HX & HY & HE) Hm Hf' Hd'.
  split; [|split; [congruence|]].
  { intros n. rewrite Hf'. apply Hf. }
  rewrite !(kinds_at_mido w w') by done. rewrite Hm. done.
Qed.

Lemma get_chain_by_name_obs tenant name X Y w :
  obs X Y w → E (tenant, name) →
  ∃ id w',
    get_chain_by_name tenant name w = (Ok (Some (ChainRef tenant name id)), w') ∧
    obs X Y w'.
Proof.
  intros Hobs HE. pose proof Hobs as (Hf & _ & _ & _ & Hex).
  destruct (Hex _ HE) as [ch Hch].
  unfold get_chain_by_name. rewrite run_remote by done. rewrite Hch. simpl.
  eexists _, _. split; [reflexivity|]. by eapply obs_same_mido.
Qed.

Lemma get_rules_in_obs X Y w :
  obs X Y w →
  ∃ rs w', get_rules cin w = (Ok rs, w') ∧ length rs = length X ∧ obs X Y w'.
Proof.
  intros Hobs. pose proof Hobs as (Hf & _ & HX & _ & _).
  unfold kinds_at, rules_at in HX.
  destruct (chains (mido w) !! chain_key cin) as [ch|] eqn:Hch; [|done].
  simpl in HX. injection HX as HX.
  unfold get_rules. rewrite run_remote by done. rewrite Hch.
  eexists _, _. split; [reflexivity|]. split.
  - by rewrite <- HX, length_map.
  - by eapply obs_same_mido.
Qed.

Lemma get_rules_out_obs X Y w :
  obs X Y w →
  ∃ rs w', get_rules cout w = (Ok rs, w') ∧ length rs = length Y ∧ obs X Y w'.
Proof.
  intros Hobs. pose proof Hobs as (Hf & _ & _ & HY & _).
  unfold kinds_at, rules_at in HY.
  destruct (chains (mido w) !! chain_key cout) as [ch|] eqn:Hch; [|done].
  simpl in HY. injection HY as HY.
  unfold get_rules. rewrite run_remote by done. rewrite Hch.
  eexists _, _. split; [reflexivity|]. split.
  - by rewrite <- HY, length_map.
  - by eapply obs_same_mido.
Qed.

Lemma insert_at_penultimate {A} (j t : A) X :
  insert_at (length (X ++ [t])) j (X ++ [t]) = X ++ [j; t].
Proof.
  unfold insert_at. rewrite length_app. simpl.
  replace (length X + 1 - 1) with (length X) by lia.
  rewrite take_app_length, drop_app_length. done.
Qed.

Lemma jump_kwargs (sg : chain_ref) n :
  midonet_kwargs
    [("jump_chain_id", VStr (c_id sg)); ("jump_chain_name", VStr (c_name sg));
     ("position", VInt (Z.of_nat n))]
  = Ok [("jump_chain_id", VStr (c_id sg));
        ("jump_chain_name", VStr (c_name sg));
        ("position", VInt (Z.of_nat n));
        ("tp_src", port_range VNone VNone);
        ("tp_dst", port_range VNone VNone)].
Proof. reflexivity. Qed.

Lemma add_sg_jump_in sg X t Y w :
  obs (X ++ [t]) Y w →
  ∃ w', add_sg_jump (Some cin) (Some sg) w = (Ok (), w') ∧
        obs (X ++ [SgJump (c_name sg); t]) Y w'.
Proof.
  intros Hobs. unfold add_sg_jump, of_option.
  erewrite run_bind by reflexivity. erewrite run_bind by reflexivity.
  destruct (get_rules_in_obs _ _ _ Hobs) as (rs & w1 & Hrun & Hlen & Hobs1).
  erewrite run_bind by exact Hrun.
  destruct (add_in_rule "jump" _ _ _ _ _ Hobs1 (jump_kwargs sg (length rs)))
    as (r & w2 & Hrun2 & Hobs2).
  erewrite run_bind by exact Hrun2.
  eexists. split; [reflexivity|].
  unfold position_of in Hobs2. simpl in Hobs2.
  rewrite Nat2Z.id, Hlen, insert_at_penultimate in Hobs2. done.
Qed.

Lemma add_sg_jump_out sg X Y t w :
  obs X (Y ++ [t]) w →
  ∃ w', add_sg_jump (Some cout) (Some sg) w = (Ok (), w') ∧
        obs X (Y ++ [SgJump (c_name sg); t]) w'.
Proof.
  intros Hobs. unfold add_sg_jump, of_option.
  erewrite run_bind by reflexivity. erewrite run_bind by reflexivity.
  destruct (get_rules_out_obs _ _ _ Hobs) as (rs & w1 & Hrun & Hlen & Hobs1).
  erewrite run_bind by exact Hrun.
  destruct (add_out_rule "jump" _ _ _ _ _ Hobs1 (jump_kwargs sg (length rs)))
    as (r & w2 & Hrun2 & Hobs2).
  erewrite run_bind by exact Hrun2.
  eexists. split; [reflexivity|].
  unfold position_of in Hobs2. simpl in Hobs2.
  rewrite Nat2Z.id, Hlen, insert_at_penultimate in Hobs2. done.
Qed.

Lemma append_not_empty (s : string) a t :
  String.eqb (s +:+ String a t) EmptyString = false.
Proof. destruct s; reflexivity. Qed.

Lemma ip_spoof_kwargs ip c suffix t a n :
  net_addr (ip +:+ String c suffix) = (a, n) →
  midonet_kwargs
    [("position", VInt 1); ("src_addr", VStr (ip +:+ String c suffix));
     ("inv_nw_src", VBool true); ("dl_type", VInt t)]
  = Ok [("position", VInt 1); ("inv_nw_src", VBool true);
        ("dl_type", VInt t); ("nw_src_addr", VStr a);
        ("nw_src_length", VInt n);
        ("tp_src", port_range VNone VNone);
        ("tp_dst", port_range VNone VNone)].
Proof.
  intros Hna. unfold midonet_kwargs, kw_pop, set_net_addr. cbn.
  rewrite append_not_empty. cbn. rewrite Hna. reflexivity.
Qed.

Lemma ip_spoofing_loop in_chain l X Y w :
  in_chain = Some cin →
  obs X Y w →
  Forall (λ f, ∃ s, _get_subnet d (subnet_id f) = Ok s) l →
  ∃ w',
    for_ l (λ fixed_ip,
      subnet ← db_read (λ d, _get_subnet d (subnet_id fixed_ip));
      if Z.eqb (subnet_ip_version subnet) 6 then
        _add_chain_rule in_chain "drop"
          [("position", VInt 1);
           ("src_addr", VStr (ip_address fixed_ip +:+ "/128"));
           ("inv_nw_src", VBool true); ("dl_type", VInt ETHERTYPE_IPV6)];;
        mret ()
      else
        _add_chain_rule in_chain "drop"
          [("position", VInt 1);
           ("src_addr", VStr (ip_address fixed_ip +:+ "/32"));
           ("inv_nw_src", VBool true); ("dl_type", VInt ETHERTYPE_IPV4)];;
        mret ()) w = (Ok (), w') ∧
    obs (rev (map (ip_spoof_kind d) l) ++ X) Y w'.
Proof.
  intros ->. revert X w.
  induction l as [|f l IH]; intros X w Hobs Hsub.
  { exists w. split; [reflexivity | done]. }
  apply Forall_cons in Hsub as [(sn & Hsn) Hsub].
  cbn [for_]. pose proof Hobs as (_ & Hd & _).
  assert (Hread : db_read (λ d0, _get_subnet d0 (subnet_id f)) w = (Ok sn, w)).
  { unfold db_read. by rewrite Hd, Hsn. }
  match goal with
  | |- ∃ w', (?m ≫= ?k) w = _ ∧ _ =>
      assert (∃ w1, m w = (Ok (), w1) ∧ obs (ip_spoof_kind d f :: X) Y w1)
        as (w1 & Hstep & Hobs1)
  end.
  { erewrite run_bind by exact Hread.
    unfold ip_spoof_kind. rewrite Hsn.
    destruct (Z.eqb (subnet_ip_version sn) 6).
    - destruct (net_addr (ip_address f +:+ "/128")) as [a n] eqn:Hna.
      destruct (add_in_rule "drop" _ _ _ _ _ Hobs (ip_spoof_kwargs _ _ _ ETHERTYPE_IPV6 _ _ Hna))
        as (r & w1 & Hrun & Hobs1).
      erewrite run_bind by exact Hrun. eexists. split; [reflexivity|].
      exact Hobs1.
    - destruct (net_addr (ip_address f +:+ "/32")) as [a n] eqn:Hna.
      destruct (add_in_rule "drop" _ _ _ _ _ Hobs (ip_spoof_kwargs _ _ _ ETHERTYPE_IPV4 _ _ Hna))
        as (r & w1 & Hrun & Hobs1).
      erewrite run_bind by exact Hrun. eexists. split; [reflexivity|].
      exact Hobs1. }
  erewrite run_bind by exact Hstep.
  destruct (IH _ _ Hobs1 Hsub) as (w' & Hrun & Hobs').
  exists w'. split; [exact Hrun|].
  simpl. by rewrite <- app_assoc.
Qed.

Lemma sg_jumps_loop tenant in_chain out_chain l X t Y t' w :
  in_chain = Some cin → out_chain = Some cout →
  obs (X ++ [t]) (Y ++ [t']) w →
  Forall (λ sg, E (tenant, fmt SG_EGRESS_CHAIN_NAME sg) ∧
                E (tenant, fmt SG_INGRESS_CHAIN_NAME sg)) l →
  ∃ w',
    for_ l (λ sg_id,
      '(sg_egress, sg_ingress) ← _get_sg_chains tenant sg_id;
      _add_sg_jumps_to_port_chains in_chain out_chain sg_egress sg_ingress)
      w = (Ok (), w') ∧
    obs (X ++ map (λ sg, SgJump (fmt SG_EGRESS_CHAIN_NAME sg)) l ++ [t])
        (Y ++ map (λ sg, SgJump (fmt SG_INGRESS_CHAIN_NAME sg)) l ++ [t']) w'.
Proof.
  intros -> ->. revert X Y w.
  induction l as [|sg l IH]; intros X Y w Hobs HE.
  { exists w. split; [reflexivity | done]. }
  apply Forall_cons in HE as [[He Hi] HE].
  cbn [for_].
  destruct (get_chain_by_name_obs _ _ _ _ _ Hobs He) as (ide & w1 & Hr1 & Hobs1).
  destruct (get_chain_by_name_obs _ _ _ _ _ Hobs1 Hi) as (idi & w2 & Hr2 & Hobs2).
  destruct (add_sg_jump_in (ChainRef tenant (fmt SG_EGRESS_CHAIN_NAME sg) ide)
              _ _ _ _ Hobs2) as (w3 & Hr3 & Hobs3).
  destruct (add_sg_jump_out (ChainRef tenant (fmt SG_INGRESS_CHAIN_NAME sg) idi)
              _ _ _ _ Hobs3) as (w4 & Hr4 & Hobs4).
  cbn [c_name] in Hobs4.
  replace (X ++ [SgJump (fmt SG_EGRESS_CHAIN_NAME sg); t])
    with ((X ++ [SgJump (fmt SG_EGRESS_CHAIN_NAME sg)]) ++ [t]) in Hobs4
    by (by rewrite <- app_assoc).
  replace (Y ++ [SgJump (fmt SG_INGRESS_CHAIN_NAME sg); t'])
    with ((Y ++ [SgJump (fmt SG_INGRESS_CHAIN_NAME sg)]) ++ [t']) in Hobs4
    by (by rewrite <- app_assoc).
  destruct (IH _ _ _ Hobs4 HE) as (w' & Hrun & Hobs').
  exists w'. split.
  - erewrite run_bind; [exact Hrun|].
    erewrite run_bind;
      [|unfold _get_sg_chains, of_option; simpl dict_get;
        erewrite run_bind by reflexivity;
        erewrite run_bind by exact Hr1;
        erewrite run_bind by reflexivity;
        erewrite run_bind by exact Hr2;
        reflexivity].
    unfold _add_sg_jumps_to_port_chains. cbn [for_].
    erewrite run_bind by exact Hr3.
    erewrite run_bind by exact Hr4.
    reflexivity.
  - cbn [map]. rewrite <- !app_assoc in Hobs'. exact Hobs'.
Qed.

End exact.

(** C1, amended: with no failing call, two distinct empty chains, known
    subnets and existing chains of the security groups, initialization
    returns and leaves in the inbound chain, in evaluation order, the
    IP-spoofing drops (last fixed IP first), the MAC-spoofing drop, the
    reverse-flow accept, the jumps to the egress chains of the groups and
    the drop of what is not ARP; in the outbound chain the reverse-flow
    accept, the jumps to the ingress chains and the drop of what is not
    ARP. *)
Theorem initialize_port_chains_order w (p : port) cin cout sg_ids :
  no_faults w →
  chain_key cin ≠ chain_key cout →
  rules_at w (chain_key cin) = Some [] →
  rules_at w (chain_key cout) = Some [] →
  Forall (λ f, ∃ s, _get_subnet (db w) (subnet_id f) = Ok s)
    (port_fixed_ips p) →
  Forall (λ sg,
      is_Some (chains (mido w)
                 !! (port_tenant_id p, fmt SG_EGRESS_CHAIN_NAME sg)) ∧
      is_Some (chains (mido w)
                 !! (port_tenant_id p, fmt SG_INGRESS_CHAIN_NAME sg)))
    (default [] sg_ids) →
  ∃ w',
    _initialize_port_chains p (Some cin) (Some cout) sg_ids w = (Ok (), w') ∧
    kinds_at w' (chain_key cin) =
      Some (rev (map (ip_spoof_kind (db w)) (port_fixed_ips p)) ++
            [MacSpoofDrop (port_mac_address p); ReverseFlowAccept] ++
            map (λ sg, SgJump (fmt SG_EGRESS_CHAIN_NAME sg))
              (default [] sg_ids) ++
            [DropNonArp]) ∧
    kinds_at w' (chain_key cout) =
      Some ([ReverseFlowAccept] ++
            map (λ sg, SgJump (fmt SG_INGRESS_CHAIN_NAME sg))
              (default [] sg_ids) ++
            [DropNonArp]).
Proof.
  intros Hf Hne Hin Hout Hsub Hsg.
  set (E := λ k : string * string, is_Some (chains (mido w) !! k)).
  assert (Hobs : port_chains_are cin cout (db w) E [] [] w).
  { unfold port_chains_are, kinds_at. rewrite Hin, Hout. done. }
  unfold _initialize_port_chains. cbn [for_].
  (* the two drops of what is not ARP *)
  destruct (add_in_rule cin cout (db w) E Hne "drop" _ _ _ _ _ Hobs
    (eq_refl : midonet_kwargs
       [("dl_type", VInt ETHERTYPE_ARP); ("inv_dl_type", VBool true);
        ("position", VInt 1)] = Ok _)) as (r1 & w1 & Hr1 & Hobs1).
  destruct (add_out_rule cin cout (db w) E Hne "drop" _ _ _ _ _ Hobs1
    (eq_refl : midonet_kwargs
       [("dl_type", VInt ETHERTYPE_ARP); ("inv_dl_type", VBool true);
        ("position", VInt 1)] = Ok _)) as (r2 & w2 & Hr2 & Hobs2).
  destruct (add_in_rule cin cout (db w) E Hne "accept" _ _ _ _ _ Hobs2
    (eq_refl : midonet_kwargs
       [("match_return_flow", VBool true); ("position", VInt 1)] = Ok _))
    as (r3 & w3 & Hr3 & Hobs3).
  destruct (add_in_rule cin cout (db w) E Hne "drop" _ _ _ _ _ Hobs3
    (eq_refl : midonet_kwargs
       [("dl_src", VStr (port_mac_address p)); ("inv_dl_src", VBool true);
        ("position", VInt 1)] = Ok _)) as (r4 & w4 & Hr4 & Hobs4).
  destruct (ip_spoofing_loop cin cout (db w) E Hne (Some cin) _ _ _ _
              eq_refl Hobs4 Hsub) as (w5 & Hr5 & Hobs5).
  destruct (add_out_rule cin cout (db w) E Hne "accept" _ _ _ _ _ Hobs5
    (eq_refl : midonet_kwargs
       [("match_return_flow", VBool true); ("position", VInt 1)] = Ok _))
    as (r6 & w6 & Hr6 & Hobs6).
  cbv [position_of insert_at] in Hobs6. simpl in Hobs6.
  unfold kind_of, kw_true, kw_str_of, kw_int_of in Hobs6. cbn in Hobs6.
  assert (Hrun : ∀ rest : M Db (),
    (for_ [Some cin; Some cout] (λ chain,
       _add_chain_rule chain "drop"
         [("dl_type", VInt ETHERTYPE_ARP); ("inv_dl_type", VBool true);
          ("position", VInt 1)];; mret ());;
     _add_chain_rule (Some cin) "accept"
       [("match_return_flow", VBool true); ("position", VInt 1)];;
     _add_chain_rule (Some cin) "drop"
       [("dl_src", VStr (port_mac_address p)); ("inv_dl_src", VBool true);
        ("position", VInt 1)];;
     for_ (port_fixed_ips p) (λ fixed_ip,
       subnet ← db_read (λ d, _get_subnet d (subnet_id fixed_ip));
       if Z.eqb (subnet_ip_version subnet) 6 then
         _add_chain_rule (Some cin) "drop"
           [("position", VInt 1);
            ("src_addr", VStr (ip_address fixed_ip +:+ "/128"));
            ("inv_nw_src", VBool true); ("dl_type", VInt ETHERTYPE_IPV6)];;
         mret ()
       else
         _add_chain_rule (Some cin) "drop"
           [("position", VInt 1);
            ("src_addr", VStr (ip_address fixed_ip +:+ "/32"));
            ("inv_nw_src", VBool true); ("dl_type", VInt ETHERTYPE_IPV4)];;
         mret ());;
     _add_chain_rule (Some cout) "accept"
       [("match_return_flow", VBool true); ("position", VInt 1)];;
     rest) w = rest w6).
  { intros rest. cbn [for_].
    erewrite run_bind;
      [|erewrite run_bind;
         [|erewrite run_bind by exact Hr1; reflexivity];
        erewrite run_bind;
         [|erewrite run_bind by exact Hr2; reflexivity];
        reflexivity].
    erewrite run_bind by exact Hr3.
    erewrite run_bind by exact Hr4.
    erewrite run_bind by exact Hr5.
    erewrite run_bind by exact Hr6. reflexivity. }
  rewrite Hrun. clear Hrun.
  change (rev (map (ip_spoof_kind (db w)) (port_fixed_ips p)) ++
          [MacSpoofDrop (port_mac_address p); ReverseFlowAccept; DropNonArp])
    with (rev (map (ip_spoof_kind (db w)) (port_fixed_ips p)) ++
          [MacSpoofDrop (port_mac_address p); ReverseFlowAccept] ++
          [DropNonArp]) in Hobs6.
  rewrite app_assoc in Hobs6.
  change [ReverseFlowAccept; DropNonArp]
    with ([ReverseFlowAccept] ++ [DropNonArp]) in Hobs6.
  assert (Hsg' : Forall (λ sg,
      E (port_tenant_id p, fmt SG_EGRESS_CHAIN_NAME sg) ∧
      E (port_tenant_id p, fmt SG_INGRESS_CHAIN_NAME sg)) (default [] sg_ids))
    by exact Hsg.
  destruct (sg_jumps_loop cin cout (db w) E Hne (port_tenant_id p)
              (Some cin) (Some cout) (default [] sg_ids) _ _ _ _ _
              eq_refl eq_refl Hobs6 Hsg') as (w7 & Hr7 & Hobs7).
  destruct Hobs7 as (_ & _ & HX & HY & _).
  rewrite <- !app_assoc in HX.
  destruct sg_ids as [[|sg l]|]; cbn [default from_option id] in *.
  - injection Hr7 as <-. by exists w6.
  - by exists w7.
  - injection Hr7 as <-. by exists w6.
Qed.
End port_chain_order.

(** C1 as stated fails: in the inbound chain of a port with a fixed IP
    the anti-spoofing drops come before the reverse-flow accept. *)
Lemma initialize_port_chains_order_counterexample :
  kinds_at
    (_initialize_port_chains example_port (Some example_in_chain)
       (Some example_out_chain) (Some ["sg-1"]) example_port_world).2
    (chain_key example_in_chain)
  = Some [IpSpoofDrop "10.0.0.3" 32 ETHERTYPE_IPV4;
          MacSpoofDrop "fa:16:3e:00:00:01";
          ReverseFlowAccept;
          SgJump "OS_SG_sg-1_EGRESS";
          DropNonArp] ∧
  accept_spoof_jumps_drop
    [IpSpoofDrop "10.0.0.3" 32 ETHERTYPE_IPV4;
     MacSpoofDrop "fa:16:3e:00:00:01";
     ReverseFlowAccept;
     SgJump "OS_SG_sg-1_EGRESS";
     DropNonArp] = false.
Proof. split; vm_compute; reflexivity. Qed.

Lemma initialize_port_chains_order_witness :
  ∃ w',
    _initialize_port_chains example_port (Some example_in_chain)
      (Some example_out_chain) (Some ["sg-1"]) example_port_world
    = (Ok (), w') ∧
    kinds_at w' (chain_key example_in_chain) =
      Some (rev (map (ip_spoof_kind example_store)
                   (port_fixed_ips example_port)) ++
            [MacSpoofDrop "fa:16:3e:00:00:01"; ReverseFlowAccept] ++
            [SgJump "OS_SG_sg-1_EGRESS"] ++ [DropNonArp]) ∧
    kinds_at w' (chain_key example_out_chain) =
      Some ([ReverseFlowAccept] ++ [SgJump "OS_SG_sg-1_INGRESS"] ++
            [DropNonArp]).
Proof.
  apply (initialize_port_chains_order example_port_world example_port
           example_in_chain example_out_chain (Some ["sg-1"])).
  - intros n. reflexivity.
  - vm_compute. discriminate.
  - vm_compute. reflexivity.
  - vm_compute. reflexivity.
  - repeat constructor. eexists. vm_compute. reflexivity.
  - repeat constructor; eexists; vm_compute; reflexivity.
Defined.

Lemma terminal_drop_stays_last_witness :
  let w1 :=
    (_initialize_port_chains example_port (Some example_in_chain)
       (Some example_out_chain) (Some ["sg-1"]) example_port_world).2 in
  (ends_with_drop w1 (chain_key example_in_chain) ∧
   ends_with_drop w1 (chain_key example_out_chain)) ∧
  (ends_with_drop
     (add_jumps_sequence (Some example_in_chain) (Some example_out_chain)
        [(Some example_in_chain, None)] w1)
     (chain_key example_in_chain) ∧
   ends_with_drop
     (add_jumps_sequence (Some example_in_chain) (Some example_out_chain)
        [(Some example_in_chain, None)] w1)
     (chain_key example_out_chain)).
Proof.
  apply (terminal_drop_stays_last example_port_world example_port
           example_in_chain example_out_chain (Some ["sg-1"])).
  - vm_compute. reflexivity.
  - vm_compute. reflexivity.
  - vm_compute. reflexivity.
Defined.

(** ** Deletion of a security group in use *)

Section security_groups.
Context {Db : Type} `{!NeutronDb Db} `{!NetUtil}.
Implicit Types w : world Db.

(** C7, amended: the deletion of a security group that has at least one
    port binding fails and leaves the world as it was, so that no chain
    and no IP address group is deleted; the error is the in-use error,
    except for the default group of a caller who is not an administrator,
    where it is the error that the default group cannot be removed. *)
Theorem delete_security_group_in_use ctx id w sg bs :
  super_get_security_group (db w) id = Ok (Some sg) →
  _get_port_security_group_bindings (db w) [sg_id sg] = Ok bs →
  bs ≠ [] →
  delete_security_group ctx id w = (Raise (in_use_error ctx sg), w).
Proof.
  intros Hsg Hbs Hne. unfold delete_security_group, with_session, in_use_error.
  erewrite run_bind by (by apply run_db_read).
  erewrite run_bind by reflexivity.
  destruct (String.eqb (sg_name sg) "default" && negb (is_admin ctx)).
  - erewrite run_bind_raise by reflexivity. by rewrite set_db_same.
  - erewrite run_bind by reflexivity.
    erewrite run_bind by (by apply run_db_read).
    destruct bs as [|b bs]; [done|].
    erewrite run_bind_raise by reflexivity. by rewrite set_db_same.
Qed.

End security_groups.

(** C7 as stated fails: the default group, bound to a port, deleted by
    someone who is not an administrator, gives another error. *)
Lemma delete_security_group_in_use_counterexample :
  _get_port_security_group_bindings (db example_sg_world) ["sg-1"]
    = Ok [SgBinding "p1" "sg-1"] ∧
  (delete_security_group (Context false) "sg-1" example_sg_world).1
    = Raise SecurityGroupCannotRemoveDefault ∧
  (delete_security_group (Context false) "sg-1" example_sg_world).1
    ≠ Raise (SecurityGroupInUse "sg-1").
Proof. split; [|split]; vm_compute; [reflexivity | reflexivity | discriminate]. Qed.

Lemma delete_security_group_in_use_witness :
  delete_security_group (Context false) "sg-2" example_sg_world
  = (Raise (SecurityGroupInUse "sg-2"), example_sg_world).
Proof.
  apply (delete_security_group_in_use (Context false) "sg-2"
           example_sg_world (SecurityGroup "sg-2" "web" "tenant" [])
           [SgBinding "p2" "sg-2"]).
  - reflexivity.
  - vm_compute. reflexivity.
  - discriminate.
Defined.

(** ** Floating IPs: an update that keeps the port *)

Section floating_ip_same_port.
Context {Db : Type} `{!NeutronDb Db} `{!NetUtil}.
Implicit Types w : world Db.

(** C10: an update of a floating IP whose new port is the port it is
    bound to issues no call to the controller and leaves its state as it
    is: routes and NAT rules stay as they were. *)
Theorem update_floatingip_same_port id body w old new d' p :
  super_get_floatingip (db w) id = Ok old →
  super_update_floatingip (db w) id body = Ok (new, d') →
  fip_port_id old = Some p →
  fip_port_id new = Some p →
  ∃ w', update_floatingip id body w = (Ok new, w') ∧
        mido w' = mido w ∧ calls w' = calls w.
Proof.
  intros Hold Hnew Hpo Hpn. unfold update_floatingip, with_session.
  erewrite run_bind by (by apply run_db_read).
  erewrite run_bind by (by apply run_db_write).
  rewrite Hpo, Hpn. rewrite bool_decide_true by done.
  destruct (truthy (Some p)); cbn [andb negb];
    (erewrite run_bind by reflexivity); eexists; (split; [reflexivity|]); done.
Qed.
End floating_ip_same_port.

Lemma update_floatingip_same_port_witness :
  ∃ w',
    update_floatingip "fip-1" (FloatingIpRequest (Some "p1") (Some "10.0.0.3"))
      example_sg_world
    = (Ok (FloatingIp "fip-1" "203.0.113.7" (Some "10.0.0.3") (Some "r1")
             (Some "p1")), w') ∧
    mido w' = mido example_sg_world ∧ calls w' = calls example_sg_world.
Proof.
  eapply (update_floatingip_same_port "fip-1" _ example_sg_world _ _ _ "p1").
  - reflexivity.
  - vm_compute. reflexivity.
  - reflexivity.
  - reflexivity.
Defined.
